(** * CheckMk notification handlers: a shallow embedding

    Two single-shot scripts are embedded here:
    - [scripts/notifications/discord.py], the chat notifier
      (module [Discord]);
    - [scripts/notifications/glpi.py], the ticketing notifier
      (module [Glpi]).

    Python [str] values are Rocq [string]s holding the UTF-8 encoding of the
    text, integers are [Z], dictionaries are [gmap]s, exceptions are an
    explicit [outcome], and the outside world (files, clock, HTTP peers) is a
    record threaded through the code. *)

From Stdlib Require Import ZArith List String Ascii Bool Lia.
From stdpp Require Import gmap strings pretty.

Local Open Scope Z_scope.

(** ** The fragment of Python the two scripts rely on *)
Module Py.

(** Exceptions.  [SystemExit] and [KeyboardInterrupt] derive from
    [BaseException] only, the others from [Exception]. *)
Inductive exn : Type :=
| ValueError
| OverflowError
| KeyError
| OSError
| UnicodeDecodeError
| JSONDecodeError
| ConnectionError
| HTTPError
| KeyboardInterrupt
| SystemExit (code : Z).

Definition is_Exception (e : exn) : bool :=
  match e with
  | KeyboardInterrupt | SystemExit _ => false
  | _ => true
  end.

(** What evaluating a statement or a call ends in. *)
Inductive outcome (A : Type) : Type :=
| Return (a : A)
| Raise (e : exn).
Arguments Return {A} a.
Arguments Raise {A} e.

(** How the interpreter process ends: an uncaught [SystemExit] gives its
    code, any other uncaught exception status 1. *)
Definition exit_status {A} (o : outcome A) : Z :=
  match o with
  | Return _ => 0
  | Raise (SystemExit c) => c
  | Raise _ => 1
  end.

Definition LF : ascii := "010"%char.
Definition CR : ascii := "013"%char.

(** [s.replace(old, new)] for a one-character [old]. *)
Fixpoint replace (old : ascii) (new : string) (s : string) : string :=
  match s with
  | EmptyString => EmptyString
  | String c r =>
      if Ascii.eqb c old then new +:+ replace old new r
      else String c (replace old new r)
  end.

(** [s.split(sep)] for a one-character [sep]: never an empty list. *)
Fixpoint split (sep : ascii) (s : string) : list string :=
  match s with
  | EmptyString => [EmptyString]
  | String c r =>
      if Ascii.eqb c sep then EmptyString :: split sep r
      else match split sep r with
           | f :: fs => String c f :: fs
           | [] => [String c EmptyString]
           end
  end.

(** Characters for which [str.isspace] holds, by the length of their UTF-8
    encoding: U+0009..U+000D, U+001C..U+0020; U+0085, U+00A0; U+1680,
    U+2000..U+200A, U+2028, U+2029, U+202F, U+205F, U+3000. *)
Definition isspace1 (c : ascii) : bool :=
  let n := nat_of_ascii c in
  ((9 <=? n)%nat && (n <=? 13)%nat) || ((28 <=? n)%nat && (n <=? 32)%nat).

Definition isspace2 (c1 c2 : ascii) : bool :=
  let a := nat_of_ascii c1 in
  let b := nat_of_ascii c2 in
  (a =? 194)%nat && ((b =? 133)%nat || (b =? 160)%nat).

Definition isspace3 (c1 c2 c3 : ascii) : bool :=
  let a := nat_of_ascii c1 in
  let b := nat_of_ascii c2 in
  let c := nat_of_ascii c3 in
  ((a =? 225)%nat && (b =? 154)%nat && (c =? 128)%nat)
  || ((a =? 226)%nat && (b =? 128)%nat
      && (((128 <=? c)%nat && (c <=? 138)%nat)
          || (c =? 168)%nat || (c =? 169)%nat || (c =? 175)%nat))
  || ((a =? 226)%nat && (b =? 129)%nat && (c =? 159)%nat)
  || ((a =? 227)%nat && (b =? 128)%nat && (c =? 128)%nat).

(** Drop leading white space; [fwd] tells whether the bytes are met in
    reading order or (for the right end) reversed. *)
Fixpoint drop_spaces (fwd : bool) (s : list ascii) : list ascii :=
  match s with
  | c1 :: r1 =>
      if isspace1 c1 then drop_spaces fwd r1
      else
        match r1 with
        | c2 :: r2 =>
            if (if fwd then isspace2 c1 c2 else isspace2 c2 c1)
            then drop_spaces fwd r2
            else
              match r2 with
              | c3 :: r3 =>
                  if (if fwd then isspace3 c1 c2 c3 else isspace3 c3 c2 c1)
                  then drop_spaces fwd r3
                  else s
              | [] => s
              end
        | [] => s
        end
  | [] => s
  end.

(** [s.strip()] *)
Definition strip (s : string) : string :=
  string_of_list_ascii
    (rev (drop_spaces false
            (rev (drop_spaces true (list_ascii_of_string s))))).

(** Text-mode reading translates ["\r\n"] and a lone ["\r"] to ["\n"]. *)
Fixpoint universal_newlines (s : string) : string :=
  match s with
  | EmptyString => EmptyString
  | String c r =>
      if Ascii.eqb c CR then
        match r with
        | String c2 r2 =>
            if Ascii.eqb c2 LF then String LF (universal_newlines r2)
            else String LF (universal_newlines r)
        | EmptyString => String LF EmptyString
        end
      else String c (universal_newlines r)
  end.

(** Cut a text after each ["\n"], keeping the terminators. *)
Fixpoint cut_lines (s : string) : list string :=
  match s with
  | EmptyString => []
  | String c r =>
      if Ascii.eqb c LF then String c EmptyString :: cut_lines r
      else match cut_lines r with
           | l :: ls => String c l :: ls
           | [] => [String c EmptyString]
           end
  end.

(** [f.readlines()] on a file opened in text mode, once the file's bytes
    have been decoded: [content] is the decoded text. *)
Definition readlines (content : string) : list string :=
  cut_lines (universal_newlines content).

(** The bytes are the UTF-8 encoding of a text, as the strict [utf-8] codec
    judges it: no stray continuation byte, no truncated or overlong
    sequence, no surrogate, nothing beyond U+10FFFF.  Bytes for which this
    fails are no text; a file holding them makes [f.readlines()] raise
    [UnicodeDecodeError]. *)
Definition between (lo hi : nat) (c : ascii) : bool :=
  let n := nat_of_ascii c in
  (lo <=? n)%nat && (n <=? hi)%nat.

Definition continuation (c : ascii) : bool := between 128 191 c.

Fixpoint is_utf8 (s : string) : bool :=
  match s with
  | EmptyString => true
  | String c1 r1 =>
      if between 0 127 c1 then is_utf8 r1
      else
        match r1 with
        | EmptyString => false
        | String c2 r2 =>
            if between 194 223 c1 then continuation c2 && is_utf8 r2
            else
              match r2 with
              | EmptyString => false
              | String c3 r3 =>
                  if (between 224 224 c1 && between 160 191 c2)
                     || (between 225 236 c1 && continuation c2)
                     || (between 237 237 c1 && between 128 159 c2)
                     || (between 238 239 c1 && continuation c2)
                  then continuation c3 && is_utf8 r3
                  else
                    match r3 with
                    | EmptyString => false
                    | String c4 r4 =>
                        ((between 240 240 c1 && between 144 191 c2)
                         || (between 241 243 c1 && continuation c2)
                         || (between 244 244 c1 && between 128 143 c2))
                        && continuation c3 && continuation c4 && is_utf8 r4
                    end
              end
        end
  end.

(** [os.environ.get(name, default)] *)
Definition environ_get (v : option string) (default : string) : string :=
  match v with
  | Some s => s
  | None => default
  end.

(** [datetime] values are naive, as the scripts use them: readings of the
    local clock, counted in microseconds.  Their difference is the
    difference of the two readings, which is the time elapsed between them
    as long as the local clock was not shifted in between.  A
    [timedelta] is kept normalised the way Python keeps it:
    [0 <= seconds < 86400] and [0 <= microseconds < 1000000], the sign
    living in [days]. *)
Record timedelta : Type := {
  days : Z;
  seconds : Z;
  microseconds : Z
}.

Definition datetime_sub (a b : Z) : timedelta :=
  let d := a - b in
  {| days := d / 86400000000;
     seconds := (d mod 86400000000) / 1000000;
     microseconds := d mod 1000000 |}.

(** [os.environ], as far as the scripts read it *)
Record environ : Type := {
  NOTIFY_HOSTNAME : option string;
  NOTIFY_SERVICEDESC : option string;
  NOTIFY_SERVICESTATE : option string;
  NOTIFY_SERVICEOUTPUT : option string;
  NOTIFY_SHORTDATETIME : option string
}.

(** An HTTP response as [requests] hands it back: the status line and what
    indexing [res.json()] with the one key the caller wants gives. *)
Record response (A : Type) : Type := {
  status_code : Z;
  json_field : outcome A
}.
Arguments status_code {A} r.
Arguments json_field {A} r.

(** [res.raise_for_status()] *)
Definition raise_for_status {A} (res : response A) : outcome unit :=
  if (400 <=? status_code res) && (status_code res <? 600)
  then Raise HTTPError
  else Return tt.

(** Statements run in a world [W] and end in an [outcome]. *)
Definition M (W A : Type) : Type := W -> outcome A * W.

Definition ret {W A} (a : A) : M W A := fun w => (Return a, w).

Definition raise {W A} (e : exn) : M W A := fun w => (Raise e, w).

Definition lift {W A} (o : outcome A) : M W A := fun w => (o, w).

Definition bind {W A B} (c : M W A) (k : A -> M W B) : M W B :=
  fun w =>
    match c w with
    | (Return a, w') => k a w'
    | (Raise e, w') => (Raise e, w')
    end.

(** [try: body finally: final].  The [final] block runs on both ways out of
    [body]; an exception it raises replaces the pending one. *)
Definition try_finally {W A} (body : M W A) (final : M W unit) : M W A :=
  fun w =>
    match body w with
    | (o, w') =>
        match final w' with
        | (Return _, w'') => (o, w'')
        | (Raise e, w'') => (Raise e, w'')
        end
    end.

(** [try: body except <class>: handler], [catches] being the class test. *)
Definition try_except {W A} (body : M W A) (catches : exn -> bool)
    (handler : exn -> M W A) : M W A :=
  fun w =>
    match body w with
    | (Return a, w') => (Return a, w')
    | (Raise e, w') => if catches e then handler e w' else (Raise e, w')
    end.

(** [exit(code)] *)
Definition exit {W A} (code : Z) : M W A := raise (SystemExit code).

Declare Scope py_scope.
Delimit Scope py_scope with py.
Notation "x <- c ;; k" := (bind c (fun x => k))
  (at level 100, c at next level, right associativity) : py_scope.
Notation "c ;;; k" := (bind c (fun _ => k))
  (at level 100, right associativity) : py_scope.

End Py.

(** ** hashlib.md5 (RFC 1321) on 32-bit words kept in [Z] *)
Module MD5.

Definition mask32 (x : Z) : Z := x mod 4294967296.

Definition not32 (x : Z) : Z := Z.lxor x 4294967295.

Definition rotl32 (x c : Z) : Z :=
  mask32 (Z.lor (Z.shiftl x c) (Z.shiftr x (32 - c))).

Definition s_table : list Z :=
  [7; 12; 17; 22; 7; 12; 17; 22; 7; 12; 17; 22; 7; 12; 17; 22;
   5; 9; 14; 20; 5; 9; 14; 20; 5; 9; 14; 20; 5; 9; 14; 20;
   4; 11; 16; 23; 4; 11; 16; 23; 4; 11; 16; 23; 4; 11; 16; 23;
   6; 10; 15; 21; 6; 10; 15; 21; 6; 10; 15; 21; 6; 10; 15; 21].

Definition K_table : list Z :=
  [3614090360; 3905402710; 606105819; 3250441966;
   4118548399; 1200080426; 2821735955; 4249261313;
   1770035416; 2336552879; 4294925233; 2304563134;
   1804603682; 4254626195; 2792965006; 1236535329;
   4129170786; 3225465664; 643717713; 3921069994;
   3593408605; 38016083; 3634488961; 3889429448;
   568446438; 3275163606; 4107603335; 1163531501;
   2850285829; 4243563512; 1735328473; 2368359562;
   4294588738; 2272392833; 1839030562; 4259657740;
   2763975236; 1272893353; 4139469664; 3200236656;
   681279174; 3936430074; 3572445317; 76029189;
   3654602809; 3873151461; 530742520; 3299628645;
   4096336452; 1126891415; 2878612391; 4237533241;
   1700485571; 2399980690; 4293915773; 2240044497;
   1873313359; 4264355552; 2734768916; 1309151649;
   4149444226; 3174756917; 718787259; 3951481745].

Definition at_index (t : list Z) (i : Z) : Z := nth (Z.to_nat i) t 0.

(** [n] as [k] little-endian bytes *)
Fixpoint le_bytes (k : nat) (n : Z) : list Z :=
  match k with
  | O => []
  | S k' => (n mod 256) :: le_bytes k' (n / 256)
  end.

Fixpoint le_word (bs : list Z) : Z :=
  match bs with
  | [] => 0
  | b :: r => b + 256 * le_word r
  end.

Definition pad (msg : list Z) : list Z :=
  let len := Z.of_nat (length msg) in
  msg ++ [128] ++ repeat 0 (Z.to_nat ((55 - len) mod 64))
      ++ le_bytes 8 (8 * len).

(** The sixteen words of a 64-byte block *)
Fixpoint words (n : nat) (block : list Z) : list Z :=
  match n with
  | O => []
  | S n' => le_word (firstn 4 block) :: words n' (skipn 4 block)
  end.

Record regs : Type := { rA : Z; rB : Z; rC : Z; rD : Z }.

Definition init : regs :=
  {| rA := 1732584193; rB := 4023233417; rC := 2562383102; rD := 271733878 |}.

Definition operation (M : list Z) (r : regs) (i : Z) : regs :=
  let '(F, g) :=
    if i <? 16 then
      (Z.lor (Z.land (rB r) (rC r)) (Z.land (not32 (rB r)) (rD r)), i)
    else if i <? 32 then
      (Z.lor (Z.land (rD r) (rB r)) (Z.land (not32 (rD r)) (rC r)),
       (5 * i + 1) mod 16)
    else if i <? 48 then
      (Z.lxor (rB r) (Z.lxor (rC r) (rD r)), (3 * i + 5) mod 16)
    else
      (Z.lxor (rC r) (Z.lor (rB r) (not32 (rD r))), (7 * i) mod 16) in
  let F' := mask32 (F + rA r + at_index K_table i + at_index M g) in
  {| rA := rD r;
     rB := mask32 (rB r + rotl32 F' (at_index s_table i));
     rC := rB r;
     rD := rC r |}.

Definition compress (h : regs) (block : list Z) : regs :=
  let r := fold_left (operation (words 16 block)) (map Z.of_nat (seq 0 64)) h in
  {| rA := mask32 (rA h + rA r);
     rB := mask32 (rB h + rB r);
     rC := mask32 (rC h + rC r);
     rD := mask32 (rD h + rD r) |}.

Fixpoint blocks (n : nat) (h : regs) (data : list Z) : regs :=
  match n with
  | O => h
  | S n' => blocks n' (compress h (firstn 64 data)) (skipn 64 data)
  end.

Definition digest (msg : list Z) : list Z :=
  let data := pad msg in
  let h := blocks (length data / 64)%nat init data in
  le_bytes 4 (rA h) ++ le_bytes 4 (rB h) ++ le_bytes 4 (rC h)
    ++ le_bytes 4 (rD h).

Definition hex_digit (n : Z) : ascii :=
  ascii_of_nat (Z.to_nat (if n <? 10 then 48 + n else 87 + n)).

Fixpoint hex (bs : list Z) : string :=
  match bs with
  | [] => EmptyString
  | b :: r => String (hex_digit (b / 16)) (String (hex_digit (b mod 16)) (hex r))
  end.

Definition bytes_of (s : string) : list Z :=
  map (fun c => Z.of_nat (nat_of_ascii c)) (list_ascii_of_string s).

(** [hashlib.md5(s.encode()).hexdigest()] *)
Definition hexdigest (s : string) : string := hex (digest (bytes_of s)).

End MD5.

(** ** discord.py *)
Module Discord.
Import Py.
Local Open Scope py_scope.

Definition WEBHOOK_URL : string := "<webhook_url>".
Definition DEDUP_WINDOW : Z := 300.

(** The file at [STATE_FILE] (the dedup log): absent, present but failing to
    open, or present with its text.  [Content text] stands for a file whose
    bytes decode, [text] being what they decode to ([Py.is_utf8 text]). *)
Inductive text_file : Type :=
| Missing
| Unreadable (e : exn)
| Content (text : string).

(** The dictionary [get_custom_message] returns *)
Record message : Type := {
  color : Z;
  emoji : string;
  title : string;
  description : string;
  details : string;
  footer : string
}.

Record embed_field : Type := {
  name : string;
  value : string;
  inline : option bool
}.

Record embed : Type := {
  embed_title : string;
  embed_color : Z;
  embed_description : string;
  embed_fields : list embed_field;
  footer_text : string;
  footer_icon_url : string;
  embed_timestamp : string
}.

(** The arguments of the one [requests.post] call *)
Record post : Type := {
  url : string;
  embeds : list embed;
  content_type : string;
  timeout : Z
}.

(** What one run of the script sees and leaves behind.  One run is taken at
    one instant: every [datetime.now()] in it reads [now]. *)
Record world : Type := {
  now : Z;
  state_file : text_file;
  webhook : post -> outcome (response unit);
  posted : list post;
  errors_log : list (Z * exn)
}.

Definition with_state_file (f : text_file) (w : world) : world :=
  {| now := now w; state_file := f; webhook := webhook w;
     posted := posted w; errors_log := errors_log w |}.

Definition with_posted (p : list post) (w : world) : world :=
  {| now := now w; state_file := state_file w; webhook := webhook w;
     posted := p; errors_log := errors_log w |}.

Definition with_errors_log (l : list (Z * exn)) (w : world) : world :=
  {| now := now w; state_file := state_file w; webhook := webhook w;
     posted := posted w; errors_log := l |}.

(** [escape_discord(text)]: a falsy [text] ([None] or [""]) gives [""]. *)
Definition escape_discord (text : option string) : string :=
  match text with
  | Some (String _ _ as t) =>
      replace "~" "\~" (replace "*" "\*" (replace "_" "\_" t))
  | _ => ""
  end.

(** The text [get_alert_fingerprint] hashes *)
Definition fingerprint_key (env : environ) : string :=
  environ_get (NOTIFY_HOSTNAME env) "" +:+ "_"
  +:+ environ_get (NOTIFY_SERVICEDESC env) "" +:+ "_"
  +:+ environ_get (NOTIFY_SERVICESTATE env) "".

Definition get_alert_fingerprint (env : environ) : string :=
  MD5.hexdigest (fingerprint_key env).

Section Timestamps.

(** Two pieces of the Python runtime are taken as they come:
    [datetime.fromtimestamp(float(text))], giving the reading of the local
    clock at that instant in microseconds or raising, and the text an
    f-string gives for [datetime.now().timestamp()]. *)
Variable fromtimestamp_float : string -> outcome Z.
Variable repr_timestamp : Z -> string.

(** The [for] loop of [is_duplicate_notification] *)
Fixpoint scan (now : Z) (fingerprint : string) (lines : list string)
  : outcome bool :=
  match lines with
  | [] => Return false
  | line :: rest =>
      match split "|" (strip line) with
      | [stored_fp; timestamp] =>
          if String.eqb stored_fp fingerprint then
            match fromtimestamp_float timestamp with
            | Return t =>
                if seconds (datetime_sub now t) <? DEDUP_WINDOW
                then Return true
                else scan now fingerprint rest
            | Raise e => Raise e
            end
          else scan now fingerprint rest
      | _ => Raise ValueError
      end
  end.

(** The [try] block of [is_duplicate_notification] *)
Definition is_duplicate_try (fingerprint : string) : M world bool :=
  fun w =>
    (match state_file w with
     | Missing => Return false
     | Unreadable e => Raise e
     | Content text => scan (now w) fingerprint (readlines text)
     end, w).

(** The bare [except:] catches whatever the block raises. *)
Definition is_duplicate_notification (fingerprint : string) : M world bool :=
  try_except (is_duplicate_try fingerprint) (fun _ => true)
    (fun _ => ret false).

Definition record_notification (fingerprint : string) : M world unit :=
  fun w =>
    let line :=
      fingerprint +:+ "|" +:+ repr_timestamp (now w) +:+ String LF "" in
    match state_file w with
    | Missing => (Return tt, with_state_file (Content line) w)
    | Content text => (Return tt, with_state_file (Content (text +:+ line)) w)
    | Unreadable e => (Raise e, w)
    end.

Definition get_custom_message (env : environ) (state : string) : message :=
  if String.eqb state "OK" then
    {| color := 65280;
       emoji := "✅";
       title := "[AWS] Service Recovery";
       description := "The Windows server services are recovered.";
       details := "Every services are working correctly.";
       footer := "System back to normal operation" |}
  else if String.eqb state "WARNING" then
    {| color := 16776960;
       emoji := "⚠️";
       title := "[AWS] Performance Warning";
       description := "The Windows server services could be slower.";
       details := "You could have network failure and file access deprecated.";
       footer := "Investigate when possible" |}
  else if String.eqb state "CRITICAL" then
    {| color := 16711680;
       emoji := "🚨";
       title := "[AWS] Service Outage";
       description := "The Windows server services are down.";
       details :=
         "The network could not work correctly and your file access aren't sure.";
       footer := "Immediate action required" |}
  else
    {| color := 3553599;
       emoji := "ℹ️";
       title := "Service Notification";
       description := "Service state changed to " +:+ state;
       details :=
         environ_get (NOTIFY_SERVICEOUTPUT env) "No details available";
       footer := "CheckMK Monitoring" |}.

(** [requests.post(...)] followed by [response.raise_for_status()] *)
Definition send (p : post) : M world unit :=
  fun w =>
    let w' := with_posted (posted w ++ [p]) w in
    match webhook w p with
    | Return res => (raise_for_status res, w')
    | Raise e => (Raise e, w')
    end.

(** The handler's append to the error log.  The log is taken to open; were
    [open] to raise there, its exception would replace [e] and no entry
    would be written. *)
Definition log_error (e : exn) : M world unit :=
  fun w => (Return tt, with_errors_log (errors_log w ++ [(now w, e)]) w).

(** The module-level [try] block *)
Definition main_body (env : environ) : M world unit :=
  let alert_id := get_alert_fingerprint env in
  duplicate <- is_duplicate_notification alert_id ;;
  if duplicate : bool then exit 0
  else
    let host :=
      escape_discord (Some (environ_get (NOTIFY_HOSTNAME env) "Unknown Server")) in
    let service :=
      escape_discord
        (Some (environ_get (NOTIFY_SERVICEDESC env) "Windows Services")) in
    let state := environ_get (NOTIFY_SERVICESTATE env) "UNKNOWN" in
    let msg := get_custom_message env state in
    let embed :=
      {| embed_title :=
           emoji msg +:+ " " +:+ title msg +:+ " - " +:+ host +:+ " "
           +:+ emoji msg;
         embed_color := color msg;
         embed_description := description msg;
         embed_fields :=
           [ {| name := "🖥️ Server"; value := host; inline := Some true |};
             {| name := "🔧 Service"; value := service; inline := Some true |};
             {| name := "📢 Status Update"; value := details msg;
                inline := None |} ];
         footer_text := footer msg;
         footer_icon_url := "https://checkmk.com/favicon.ico";
         embed_timestamp := environ_get (NOTIFY_SHORTDATETIME env) "" |} in
    send {| url := WEBHOOK_URL; embeds := [embed];
            content_type := "application/json"; timeout := 10 |} ;;;
    record_notification alert_id.

(** The whole script: [except Exception] logs and re-raises; [SystemExit]
    is not an [Exception] and passes through. *)
Definition main (env : environ) : M world unit :=
  try_except (main_body env) is_Exception
    (fun e => log_error e ;;; raise e).

End Timestamps.

End Discord.

(** ** Plain decimal timestamps

    One reading of the two runtime functions [Discord] leaves open, enough
    for the texts the script itself writes: an optional sign, digits, and
    an optional fraction.  Anything else counts as unparsable here. *)
Module Decimal.
Import Py.

Definition digit (c : ascii) : option Z :=
  let n := Z.of_nat (nat_of_ascii c) in
  if (48 <=? n) && (n <=? 57) then Some (n - 48) else None.

Fixpoint digits (acc : Z) (s : string) : option Z :=
  match s with
  | EmptyString => Some acc
  | String c r =>
      match digit c with
      | Some d => digits (10 * acc + d) r
      | None => None
      end
  end.

(** Round [n / d] to the nearest integer, ties to even. *)
Definition round_half_even (n d : Z) : Z :=
  let q := n / d in
  let r := n mod d in
  if (d <? 2 * r) || ((2 * r =? d) && Z.odd q) then q + 1 else q.

Definition unsigned_micros (s : string) : option Z :=
  match split "." s with
  | [String c i] =>
      option_map (fun n => 1000000 * n) (digits 0 (String c i))
  | [String c i; f] =>
      match digits 0 (String c i), digits 0 f with
      | Some n, Some m =>
          Some (1000000 * n
                + round_half_even (1000000 * m) (10 ^ Z.of_nat (String.length f)))
      | _, _ => None
      end
  | _ => None
  end.

Definition fromtimestamp_float (s : string) : outcome Z :=
  let '(negative, body) :=
    match s with
    | String "-" r => (true, r)
    | String "+" r => (false, r)
    | _ => (false, s)
    end in
  match unsigned_micros body with
  | Some t => Return (if negative then - t else t)
  | None => Raise ValueError
  end.

Fixpoint rstrip_zeros (fuel : nat) (frac : Z) : Z * nat :=
  match fuel with
  | O => (frac, O)
  | S fuel' =>
      if (frac mod 10 =? 0) && (1 <? Z.of_nat fuel)
      then rstrip_zeros fuel' (frac / 10)
      else (frac, fuel)
  end.

Fixpoint zeros (n : nat) : string :=
  match n with
  | O => EmptyString
  | S n' => String "0" (zeros n')
  end.

Definition zero_pad (width : nat) (s : string) : string :=
  zeros (width - String.length s) +:+ s.

(** Seconds with one to six decimals, for a time of one second or more
    after the epoch. *)
Definition repr_timestamp (t : Z) : string :=
  let '(frac, width) := rstrip_zeros 6 (t mod 1000000) in
  pretty (t / 1000000) +:+ "." +:+ zero_pad width (pretty frac).

End Decimal.

(** ** glpi.py *)
Module Glpi.
Import Py.
Local Open Scope py_scope.

(** The file at [STATE_FILE]: absent, present but not loadable, or a JSON
    object from fingerprints to ticket ids. *)
Inductive json_file : Type :=
| Absent
| Corrupt (e : exn)
| Stored (data : gmap string Z).

(** The ["input"] object of the create request *)
Record ticket_input : Type := {
  name : string;
  content : string;
  status : Z;
  priority : Z;
  urgency : Z;
  impact : Z;
  type : Z;
  requesttypes_id : Z;
  itilcategories_id : Z
}.

(** What the script does to the outside, in the order it does it *)
Inductive call : Type :=
| GET_initSession
| GET_killSession (session_token : string)
| POST_Ticket (session_token : string) (input : ticket_input)
| PUT_Ticket (session_token : string) (ticket_id : Z) (status : Z)
| write_STATE_FILE (data : gmap string Z).

(** The REST peer: what it answers to each request, or the exception
    [requests] raises instead. *)
Record server : Type := {
  initSession : outcome (response string);
  killSession : string -> outcome (response unit);
  post_Ticket : string -> ticket_input -> outcome (response Z);
  put_Ticket : string -> Z -> outcome (response unit)
}.

(** [state_data] is the dictionary object [main] holds and mutates. *)
Record world : Type := {
  api : server;
  state_file : json_file;
  state_data : gmap string Z;
  calls : list call;
  stdout : list string
}.

Definition with_state_data (d : gmap string Z) (w : world) : world :=
  {| api := api w; state_file := state_file w; state_data := d;
     calls := calls w; stdout := stdout w |}.

Definition with_call (c : call) (w : world) : world :=
  {| api := api w; state_file := state_file w; state_data := state_data w;
     calls := calls w ++ [c]; stdout := stdout w |}.

Definition with_state_file (f : json_file) (w : world) : world :=
  {| api := api w; state_file := f; state_data := state_data w;
     calls := calls w; stdout := stdout w |}.

Definition print (line : string) : M world unit :=
  fun w =>
    (Return tt,
     {| api := api w; state_file := state_file w; state_data := state_data w;
        calls := calls w; stdout := stdout w ++ [line] |}).

(** Issue one HTTP request and take the peer's answer. *)
Definition request {A} (c : call) (answer : server -> outcome (response A))
  : M world (response A) :=
  fun w => (answer (api w), with_call c w).

Definition read_state : M world (gmap string Z) :=
  fun w =>
    match state_file w with
    | Absent => (Return ∅, w)
    | Corrupt e => (Raise e, w)
    | Stored data => (Return data, w)
    end.

(** The state file is taken to open for writing and the dump to go
    through. *)
Definition write_state (state : gmap string Z) : M world unit :=
  fun w =>
    (Return tt, with_state_file (Stored state) (with_call (write_STATE_FILE state) w)).

Definition open_session : M world string :=
  res <- request GET_initSession initSession ;;
  lift (raise_for_status res) ;;;
  lift (json_field res).

Definition close_session (session_token : string) : M world unit :=
  request (GET_killSession session_token)
    (fun s => killSession s session_token) ;;;
  ret tt.

(** The [payload["input"]] of [create_ticket] *)
Definition new_ticket (host service state output : string) : ticket_input :=
  {| name := state +:+ " on " +:+ host;
     content :=
       "Issue with service '" +:+ service +:+ "' on host '" +:+ host +:+ "'"
       +:+ String LF (String LF "Details: ") +:+ output;
     status := 1;
     priority := 3;
     urgency := 2;
     impact := 2;
     type := 1;
     requesttypes_id := 1;
     itilcategories_id := 698 |}.

Definition create_ticket (session_token host service state output : string)
  : M world Z :=
  let input := new_ticket host service state output in
  res <- request (POST_Ticket session_token input)
           (fun s => post_Ticket s session_token input) ;;
  lift (raise_for_status res) ;;;
  lift (json_field res).

Definition close_ticket (session_token : string) (ticket_id : Z)
  : M world unit :=
  res <- request (PUT_Ticket session_token ticket_id 6)
           (fun s => put_Ticket s session_token ticket_id) ;;
  lift (raise_for_status res).

(** The dictionary operations [main] uses on [state_data] *)
Definition contains (key : string) : M world bool :=
  fun w => (Return (bool_decide (is_Some (state_data w !! key))), w).

Definition getitem (key : string) : M world Z :=
  fun w =>
    match state_data w !! key with
    | Some v => (Return v, w)
    | None => (Raise KeyError, w)
    end.

Definition setitem (key : string) (v : Z) : M world unit :=
  fun w => (Return tt, with_state_data (<[key := v]> (state_data w)) w).

Definition delitem (key : string) : M world unit :=
  fun w =>
    match state_data w !! key with
    | Some _ => (Return tt, with_state_data (delete key (state_data w)) w)
    | None => (Raise KeyError, w)
    end.

(** [f"{host}_{service}"] with the defaults [main] reads the fields with *)
Definition fingerprint_of (env : environ) : string :=
  environ_get (NOTIFY_HOSTNAME env) "Unknown" +:+ "_"
  +:+ environ_get (NOTIFY_SERVICEDESC env) "Service".

(** The [try] block of [main] *)
Definition main_try (session host service state output fingerprint : string)
  : M world unit :=
  if String.eqb state "CRITICAL" || String.eqb state "WARNING" then
    present <- contains fingerprint ;;
    if negb present then
      ticket_id <- create_ticket session host service state output ;;
      setitem fingerprint ticket_id ;;;
      print ("Created ticket " +:+ pretty ticket_id +:+ " for "
             +:+ fingerprint)
    else ret tt
  else if String.eqb state "OK" then
    present <- contains fingerprint ;;
    if present : bool then
      ticket_id <- getitem fingerprint ;;
      close_ticket session ticket_id ;;;
      print ("Closed ticket " +:+ pretty ticket_id +:+ " for "
             +:+ fingerprint) ;;;
      delitem fingerprint
    else ret tt
  else ret tt.

(** The [finally] block of [main] *)
Definition main_finally (session : string) : M world unit :=
  close_session session ;;;
  (fun w => write_state (state_data w) w).

Definition main (env : environ) : M world unit :=
  let host := environ_get (NOTIFY_HOSTNAME env) "Unknown" in
  let service := environ_get (NOTIFY_SERVICEDESC env) "Service" in
  let state := environ_get (NOTIFY_SERVICESTATE env) "UNKNOWN" in
  let output := environ_get (NOTIFY_SERVICEOUTPUT env) "No output" in
  let fingerprint := host +:+ "_" +:+ service in
  loaded <- read_state ;;
  (fun w => (Return tt, with_state_data loaded w)) ;;;
  session <- open_session ;;
  try_finally
    (main_try session host service state output fingerprint)
    (main_finally session).

(** One invocation: a fresh process against peer [srv] and file [f]. *)
Definition boot (srv : server) (f : json_file) : world :=
  {| api := srv; state_file := f; state_data := ∅; calls := [];
     stdout := [] |}.

Definition invoke (env : environ) (srv : server) (f : json_file)
  : outcome unit * world :=
  main env (boot srv f).

End Glpi.

(** ** Vocabulary of the properties *)
Module Spec.
Import Py.

(** *** Escaping, read in one pass: what each character becomes *)
Definition escaped_char (c : ascii) : string :=
  if Ascii.eqb c "_" || Ascii.eqb c "*" || Ascii.eqb c "~"
  then String "\" (String c EmptyString)
  else String c EmptyString.

Fixpoint prefix_specials (s : string) : string :=
  match s with
  | EmptyString => EmptyString
  | String c r => escaped_char c +:+ prefix_specials r
  end.

(** *** The dedup window, as the specification words it *)
Section Window.

Variable fromtimestamp_float : string -> outcome Z.

(** The line stores [fingerprint] with a time less than 300 seconds
    before [now]. *)
Definition seen_recently (now : Z) (fingerprint line : string) : bool :=
  match split "|" (strip line) with
  | [stored_fp; timestamp] =>
      String.eqb stored_fp fingerprint
      && match fromtimestamp_float timestamp with
         | Return t => now - t <? 1000000 * 300
         | Raise _ => false
         end
  | _ => false
  end.

Definition recently_seen (now : Z) (fingerprint : string)
    (lines : list string) : bool :=
  existsb (seen_recently now fingerprint) lines.

(** The line has the shape [fingerprint|timestamp]. *)
Definition two_fields (line : string) : bool :=
  match split "|" (strip line) with
  | [_; _] => true
  | _ => false
  end.

(** The line has two fields and, if it stores [fingerprint], a time that
    reads well. *)
Definition well_formed (fingerprint line : string) : bool :=
  match split "|" (strip line) with
  | [stored_fp; timestamp] =>
      if String.eqb stored_fp fingerprint then
        match fromtimestamp_float timestamp with
        | Return _ => true
        | Raise _ => false
        end
      else true
  | _ => false
  end.

(** Some line stores [fingerprint] with a time less than 300 seconds before
    [now], and every line before it is well formed. *)
Fixpoint seen_behind_well_formed (now : Z) (fingerprint : string)
    (lines : list string) : bool :=
  match lines with
  | [] => false
  | line :: rest =>
      seen_recently now fingerprint line
      || (well_formed fingerprint line
          && seen_behind_well_formed now fingerprint rest)
  end.

(** If the line stores [fingerprint] with a time that reads well, the
    difference from that time to [now] is below 300 seconds exactly when
    its remainder modulo one day is: the entry is less than 300 seconds
    old, or it is older and not within 300 seconds after a whole number of
    days (a time ahead of [now]: a whole number of days ahead by no more
    than that). *)
Definition plain_age (now : Z) (fingerprint line : string) : bool :=
  match split "|" (strip line) with
  | [stored_fp; timestamp] =>
      if String.eqb stored_fp fingerprint then
        match fromtimestamp_float timestamp with
        | Return t =>
            Bool.eqb ((now - t) mod (1000000 * 86400) <? 1000000 * 300)
                     (now - t <? 1000000 * 300)
        | Raise _ => true
        end
      else true
  | _ => true
  end.

End Window.

(** The lines the dedup log holds *)
Definition log_lines (w : Discord.world) : list string :=
  match Discord.state_file w with
  | Discord.Content text => readlines text
  | _ => []
  end.

(** What the dedup log holds is text: its bytes decode. *)
Definition decodes (f : Discord.text_file) : bool :=
  match f with
  | Discord.Content text => is_utf8 text
  | _ => true
  end.

(** An environment with the three fields the fingerprints read *)
Definition event (host service state : string) : environ :=
  {| NOTIFY_HOSTNAME := Some host;
     NOTIFY_SERVICEDESC := Some service;
     NOTIFY_SERVICESTATE := Some state;
     NOTIFY_SERVICEOUTPUT := None;
     NOTIFY_SHORTDATETIME := None |}.

(** A webhook that accepts every post *)
Definition accepting : Discord.post -> outcome (response unit) :=
  fun _ => Return {| status_code := 204; json_field := Return tt |}.

(** A run of the chat notifier at [now] over a log holding [text] *)
Definition dedup_world (now : Z) (text : string) : Discord.world :=
  {| Discord.now := now;
     Discord.state_file := Discord.Content text;
     Discord.webhook := accepting;
     Discord.posted := [];
     Discord.errors_log := [] |}.

(** The same over a missing log *)
Definition first_world (now : Z) : Discord.world :=
  {| Discord.now := now;
     Discord.state_file := Discord.Missing;
     Discord.webhook := accepting;
     Discord.posted := [];
     Discord.errors_log := [] |}.

(** A sample event and its fingerprint, and some logs: one line as the
    script writes it; an entry 99.5 seconds old behind a foreign one; the
    same entry behind a line that is no record. *)
Definition sample_event : environ := event "a_b" "c" "CRITICAL".

Definition sample_fingerprint : string := "efdb1bf33dea69e5a9e232b58407e8b6".

Definition entry (fingerprint timestamp : string) : string :=
  fingerprint +:+ "|" +:+ timestamp +:+ String LF "".

Definition recent_log : string :=
  entry "0efef3a2288b02b43890b9d193213598" "1699990000.25"
  +:+ entry sample_fingerprint "1700000000.5".

Definition broken_log : string :=
  "not a record" +:+ String LF "" +:+ entry sample_fingerprint "1700000000.5".

Definition single_log : string := entry sample_fingerprint "1700000000.0".

(** A log that was never pruned: the fingerprint eleven days back, a foreign
    entry, the fingerprint again. *)
Definition aged_log : string :=
  entry sample_fingerprint "1699000000.0" +:+ recent_log.

(** *** The ticketing notifier, call by call *)

(** What [read_state] gives for a state file *)
Definition loaded (f : Glpi.json_file) : outcome (gmap string Z) :=
  match f with
  | Glpi.Absent => Return ∅
  | Glpi.Corrupt e => Raise e
  | Glpi.Stored data => Return data
  end.

(** An answer after [raise_for_status] and the look-up in its JSON *)
Definition checked {A} (answer : outcome (response A)) : outcome A :=
  match answer with
  | Return res =>
      match raise_for_status res with
      | Return _ => json_field res
      | Raise e => Raise e
      end
  | Raise e => Raise e
  end.

(** What each of the four API functions ends in against peer [srv] *)
Definition opened (srv : Glpi.server) : outcome string :=
  checked (Glpi.initSession srv).

Definition created (srv : Glpi.server) (session : string)
    (input : Glpi.ticket_input) : outcome Z :=
  checked (Glpi.post_Ticket srv session input).

Definition closed (srv : Glpi.server) (session : string) (ticket_id : Z)
  : outcome unit :=
  match Glpi.put_Ticket srv session ticket_id with
  | Return res => raise_for_status res
  | Raise e => Raise e
  end.

Definition killed (srv : Glpi.server) (session : string) : outcome unit :=
  match Glpi.killSession srv session with
  | Return _ => Return tt
  | Raise e => Raise e
  end.

(** The event fields as [Glpi.main] reads them *)
Definition host_of (env : environ) : string :=
  environ_get (NOTIFY_HOSTNAME env) "Unknown".
Definition service_of (env : environ) : string :=
  environ_get (NOTIFY_SERVICEDESC env) "Service".
Definition state_of (env : environ) : string :=
  environ_get (NOTIFY_SERVICESTATE env) "UNKNOWN".
Definition output_of (env : environ) : string :=
  environ_get (NOTIFY_SERVICEOUTPUT env) "No output".
Definition ticket_of (env : environ) : Glpi.ticket_input :=
  Glpi.new_ticket (host_of env) (service_of env) (state_of env)
    (output_of env).

(** The transition table of the specification *)
Inductive action : Type :=
| Create
| Close (ticket_id : Z)
| Nothing.

Definition transition_table (entry : option Z) (state : string) : action :=
  let alarm := String.eqb state "WARNING" || String.eqb state "CRITICAL" in
  match entry with
  | None => if alarm then Create else Nothing
  | Some ticket_id =>
      if alarm then Nothing
      else if String.eqb state "OK" then Close ticket_id
      else Nothing
  end.

(** The ticket request an action stands for *)
Definition ticket_request (session : string) (env : environ) (a : action)
  : list Glpi.call :=
  match a with
  | Create => [Glpi.POST_Ticket session (ticket_of env)]
  | Close ticket_id => [Glpi.PUT_Ticket session ticket_id 6]
  | Nothing => []
  end.

(** The outcome of that request *)
Definition ticket_outcome (srv : Glpi.server) (session : string)
    (env : environ) (a : action) : outcome unit :=
  match a with
  | Create =>
      match created srv session (ticket_of env) with
      | Return _ => Return tt
      | Raise e => Raise e
      end
  | Close ticket_id => closed srv session ticket_id
  | Nothing => Return tt
  end.

(** The map an action leaves in [state_data] *)
Definition ticket_record (srv : Glpi.server) (session : string)
    (env : environ) (a : action) (m : gmap string Z) : gmap string Z :=
  match a with
  | Create =>
      match created srv session (ticket_of env) with
      | Return ticket_id => <[Glpi.fingerprint_of env := ticket_id]> m
      | Raise _ => m
      end
  | Close ticket_id =>
      match closed srv session ticket_id with
      | Return _ => delete (Glpi.fingerprint_of env) m
      | Raise _ => m
      end
  | Nothing => m
  end.

Definition is_ticket_call (c : Glpi.call) : bool :=
  match c with
  | Glpi.POST_Ticket _ _ | Glpi.PUT_Ticket _ _ _ => true
  | _ => false
  end.

Definition is_write (c : Glpi.call) : bool :=
  match c with
  | Glpi.write_STATE_FILE _ => true
  | _ => false
  end.

(** Sample peers: one that answers every request, handing out [id] for a
    new ticket; one that cannot be reached; one that fails the ticket
    requests with status 500; one that drops the session-close request. *)
Definition answer {A} (a : A) : outcome (response A) :=
  Return {| status_code := 200; json_field := Return a |}.

Definition helpful (id : Z) : Glpi.server :=
  {| Glpi.initSession := answer "s3ss10n";
     Glpi.killSession := fun _ => answer tt;
     Glpi.post_Ticket := fun _ _ => answer id;
     Glpi.put_Ticket := fun _ _ => answer tt |}.

Definition offline : Glpi.server :=
  {| Glpi.initSession := Raise ConnectionError;
     Glpi.killSession := fun _ => Raise ConnectionError;
     Glpi.post_Ticket := fun _ _ => Raise ConnectionError;
     Glpi.put_Ticket := fun _ _ => Raise ConnectionError |}.

Definition failing_tickets : Glpi.server :=
  {| Glpi.initSession := answer "s3ss10n";
     Glpi.killSession := fun _ => answer tt;
     Glpi.post_Ticket :=
       fun _ _ => Return {| status_code := 500; json_field := Raise KeyError |};
     Glpi.put_Ticket :=
       fun _ _ => Return {| status_code := 500; json_field := Return tt |} |}.

Definition dropping_close (id : Z) : Glpi.server :=
  {| Glpi.initSession := answer "s3ss10n";
     Glpi.killSession := fun _ => Raise ConnectionError;
     Glpi.post_Ticket := fun _ _ => answer id;
     Glpi.put_Ticket := fun _ _ => answer tt |}.

(** State files that invocations of the notifier lead to from [f0] *)
Inductive reachable (f0 : Glpi.json_file) : Glpi.json_file -> Prop :=
| reach_start : reachable f0 f0
| reach_invoke f env srv :
    reachable f0 f ->
    reachable f0 (Glpi.state_file (snd (Glpi.invoke env srv f))).

(** The tickets open at the peer on behalf of each fingerprint, going by
    its answers: a create answered with an id opens that ticket for the
    event's fingerprint, a close answered without error closes it. *)
Definition tally (env : environ) (srv : Glpi.server) (c : Glpi.call)
    (open : string -> list Z) : string -> list Z :=
  match c with
  | Glpi.POST_Ticket session input =>
      match created srv session input with
      | Return ticket_id =>
          fun fp =>
            if String.eqb fp (Glpi.fingerprint_of env)
            then ticket_id :: open fp
            else open fp
      | Raise _ => open
      end
  | Glpi.PUT_Ticket session ticket_id _ =>
      match closed srv session ticket_id with
      | Return _ =>
          fun fp =>
            if String.eqb fp (Glpi.fingerprint_of env)
            then List.remove Z.eq_dec ticket_id (open fp)
            else open fp
      | Raise _ => open
      end
  | _ => open
  end.

Definition settle (env : environ) (srv : Glpi.server)
    (cs : list Glpi.call) (open : string -> list Z) : string -> list Z :=
  fold_left (fun o c => tally env srv c o) cs open.

(** Histories of invocations that start with no state file and no ticket,
    and in which every session that opens is closed without error: the
    state file and the open tickets they lead to. *)
Inductive history : Glpi.json_file -> (string -> list Z) -> Prop :=
| history_start : history Glpi.Absent (fun _ => [])
| history_invoke f open env srv :
    history f open ->
    (forall session, opened srv = Return session ->
                     killed srv session = Return tt) ->
    history (Glpi.state_file (snd (Glpi.invoke env srv f)))
      (settle env srv (Glpi.calls (snd (Glpi.invoke env srv f))) open).

End Spec.

(** ** Vocabulary of the log format *)
Module Format.
Import Py.

(** A character that is neither white space nor the field separator, and
    one byte long in UTF-8 *)
Definition plain (c : ascii) : bool :=
  let n := nat_of_ascii c in
  (n <? 128)%nat && negb (isspace1 c) && negb (n =? 124)%nat.

(** A non-empty text of plain characters *)
Definition word (s : string) : bool :=
  match s with
  | EmptyString => false
  | _ => forallb plain (list_ascii_of_string s)
  end.

(** A lowercase hexadecimal digit *)
Definition is_hex_digit (c : ascii) : bool :=
  let n := nat_of_ascii c in
  ((48 <=? n)%nat && (n <=? 57)%nat) || ((97 <=? n)%nat && (n <=? 102)%nat).

(** A text that is empty or ends with a line feed *)
Fixpoint complete (s : string) : bool :=
  match s with
  | EmptyString => true
  | String c r =>
      match r with
      | EmptyString => Ascii.eqb c LF
      | _ => complete r
      end
  end.

(** A character that ends no line *)
Definition inline (c : ascii) : bool :=
  negb (Ascii.eqb c LF) && negb (Ascii.eqb c CR).

(** The line [record_notification] writes *)
Definition record_line (repr_timestamp : Z -> string) (fingerprint : string)
    (now : Z) : string :=
  fingerprint +:+ "|" +:+ repr_timestamp now +:+ String LF "".

End Format.

(** ** Vocabulary of the further properties *)
Module More.
Import Py.

(** *** The chat notifier, step by step *)

(** The payload of the one post, as the script builds it *)
Definition post_of (env : environ) : Discord.post :=
  let host :=
    Discord.escape_discord
      (Some (environ_get (NOTIFY_HOSTNAME env) "Unknown Server")) in
  let service :=
    Discord.escape_discord
      (Some (environ_get (NOTIFY_SERVICEDESC env) "Windows Services")) in
  let msg :=
    Discord.get_custom_message env
      (environ_get (NOTIFY_SERVICESTATE env) "UNKNOWN") in
  {| Discord.url := Discord.WEBHOOK_URL;
     Discord.embeds :=
       [ {| Discord.embed_title :=
              Discord.emoji msg +:+ " " +:+ Discord.title msg +:+ " - "
              +:+ host +:+ " " +:+ Discord.emoji msg;
            Discord.embed_color := Discord.color msg;
            Discord.embed_description := Discord.description msg;
            Discord.embed_fields :=
              [ {| Discord.name := "🖥️ Server"; Discord.value := host;
                   Discord.inline := Some true |};
                {| Discord.name := "🔧 Service"; Discord.value := service;
                   Discord.inline := Some true |};
                {| Discord.name := "📢 Status Update";
                   Discord.value := Discord.details msg;
                   Discord.inline := None |} ];
            Discord.footer_text := Discord.footer msg;
            Discord.footer_icon_url := "https://checkmk.com/favicon.ico";
            Discord.embed_timestamp :=
              environ_get (NOTIFY_SHORTDATETIME env) "" |} ];
     Discord.content_type := "application/json";
     Discord.timeout := 10 |}.

(** What the post ends in: the webhook's answer after
    [raise_for_status] *)
Definition delivered (w : Discord.world) (p : Discord.post) : outcome unit :=
  match Discord.webhook w p with
  | Return res => raise_for_status res
  | Raise e => Raise e
  end.

(** What appending to the dedup log ends in *)
Definition appended (f : Discord.text_file) : outcome unit :=
  match f with
  | Discord.Unreadable e => Raise e
  | _ => Return tt
  end.

(** The text of the dedup log, a missing one counting as empty *)
Definition log_text (f : Discord.text_file) : string :=
  match f with
  | Discord.Content text => text
  | _ => ""
  end.

(** Whether the check lets the event through *)
Definition passes (fromtimestamp_float : string -> outcome Z)
    (fingerprint : string) (w : Discord.world) : bool :=
  match fst (Discord.is_duplicate_try fromtimestamp_float fingerprint w) with
  | Return b => negb b
  | Raise _ => true
  end.

(** The same world at another time *)
Definition at_time (now : Z) (w : Discord.world) : Discord.world :=
  {| Discord.now := now;
     Discord.state_file := Discord.state_file w;
     Discord.webhook := Discord.webhook w;
     Discord.posted := Discord.posted w;
     Discord.errors_log := Discord.errors_log w |}.

(** *** Undoing the escaping *)

Definition special (c : ascii) : bool :=
  Ascii.eqb c "_" || Ascii.eqb c "*" || Ascii.eqb c "~".

(** Drop each backslash that stands before a special character. *)
Fixpoint unescape (s : string) : string :=
  match s with
  | EmptyString => EmptyString
  | String c r =>
      if Ascii.eqb c "\" then
        match r with
        | String c2 r2 =>
            if special c2 then String c2 (unescape r2)
            else String c (unescape r)
        | EmptyString => String c EmptyString
        end
      else String c (unescape r)
  end.

(** *** Logs the script wrote *)
Section Written.

Variable fromtimestamp_float : string -> outcome Z.
Variable repr_timestamp : Z -> string.

(** The texts that appending records to an empty log gives, each record
    with a time whose text is a word that reads back as a time *)
Inductive script_log : string -> Prop :=
| script_log_empty : script_log ""
| script_log_record text env t t' :
    script_log text ->
    Format.word (repr_timestamp t) = true ->
    fromtimestamp_float (repr_timestamp t) = Return t' ->
    script_log
      (text
       +:+ Format.record_line repr_timestamp
             (Discord.get_alert_fingerprint env) t).

End Written.

(** *** The ticketing notifier *)

(** The session token a request carries *)
Definition session_of (c : Glpi.call) : option string :=
  match c with
  | Glpi.GET_killSession session => Some session
  | Glpi.POST_Ticket session _ => Some session
  | Glpi.PUT_Ticket session _ _ => Some session
  | _ => None
  end.

(** WARNING or CRITICAL *)
Definition alarm (state : string) : Prop :=
  state = "WARNING" \/ state = "CRITICAL".

(** What an invocation prints *)
Definition printed (srv : Glpi.server) (session : string) (env : environ)
    (a : Spec.action) : list string :=
  match a with
  | Spec.Create =>
      match Spec.created srv session (Spec.ticket_of env) with
      | Return ticket_id =>
          ["Created ticket " +:+ pretty ticket_id +:+ " for "
           +:+ Glpi.fingerprint_of env]
      | Raise _ => []
      end
  | Spec.Close ticket_id =>
      match Spec.closed srv session ticket_id with
      | Return _ =>
          ["Closed ticket " +:+ pretty ticket_id +:+ " for "
           +:+ Glpi.fingerprint_of env]
      | Raise _ => []
      end
  | Spec.Nothing => []
  end.

(** *** Sample worlds and peers *)

(** A webhook that answers every post with status 500 *)
Definition rejecting : Discord.post -> outcome (response unit) :=
  fun _ => Return {| status_code := 500; json_field := Return tt |}.

Definition chat_world (now : Z) (f : Discord.text_file)
    (hook : Discord.post -> outcome (response unit)) : Discord.world :=
  {| Discord.now := now;
     Discord.state_file := f;
     Discord.webhook := hook;
     Discord.posted := [];
     Discord.errors_log := [] |}.

(** A peer that serves everything but answers the session close with
    status 500 *)
Definition grumpy_close (id : Z) : Glpi.server :=
  {| Glpi.initSession := Spec.answer "s3ss10n";
     Glpi.killSession :=
       fun _ => Return {| status_code := 500; json_field := Return tt |};
     Glpi.post_Ticket := fun _ _ => Spec.answer id;
     Glpi.put_Ticket := fun _ _ => Spec.answer tt |}.

End More.

(** * Properties *)

(** ** Strings *)
Section Strings.
Import Py.

Lemma append_cons c (a b : string) : String c a +:+ b = String c (a +:+ b).
Proof. reflexivity. Qed.

Lemma append_assoc (a b c : string) : (a +:+ b) +:+ c = a +:+ (b +:+ c).
Proof.
  induction a as [|x a IH]; [reflexivity|].
  rewrite !append_cons, IH. reflexivity.
Qed.

Lemma replace_cons old new c r :
  replace old new (String c r)
  = if Ascii.eqb c old then new +:+ replace old new r
    else String c (replace old new r).
Proof. reflexivity. Qed.

Lemma replace_app old new a b :
  replace old new (a +:+ b) = replace old new a +:+ replace old new b.
Proof.
  induction a as [|c a IH]; [reflexivity|].
  rewrite append_cons, !replace_cons.
  destruct (Ascii.eqb c old); rewrite IH.
  - symmetry. apply append_assoc.
  - reflexivity.
Qed.

End Strings.

(** ** Escaping (discord.py) *)
Section Escaping.
Import Py Discord Spec.

Lemma three_passes_cons c s :
  replace "~" "\~" (replace "*" "\*" (replace "_" "\_" (String c s)))
  = escaped_char c
    +:+ replace "~" "\~" (replace "*" "\*" (replace "_" "\_" s)).
Proof.
  unfold escaped_char. rewrite (replace_cons "_").
  destruct (Ascii.eqb c "_") eqn:E1.
  - apply Ascii.eqb_eq in E1; subst c.
    rewrite !replace_app. reflexivity.
  - rewrite (replace_cons "*").
    destruct (Ascii.eqb c "*") eqn:E2.
    + apply Ascii.eqb_eq in E2; subst c.
      rewrite !replace_app. reflexivity.
    + rewrite (replace_cons "~").
      destruct (Ascii.eqb c "~") eqn:E3.
      * apply Ascii.eqb_eq in E3; subst c. reflexivity.
      * reflexivity.
Qed.

Lemma three_passes s :
  replace "~" "\~" (replace "*" "\*" (replace "_" "\_" s))
  = prefix_specials s.
Proof.
  induction s as [|c s IH]; [reflexivity|].
  rewrite three_passes_cons, IH. reflexivity.
Qed.

(** C7.  For every input string [escape_discord] puts a backslash before
    each underscore, asterisk and tilde and keeps every other character as
    it is, so that ["a_b*c~d"] becomes ["a\_b\*c\~d"]; an empty or missing
    input gives the empty string. *)
Theorem escape_discord_prefixes_specials :
  (forall s : string, escape_discord (Some s) = prefix_specials s)
  /\ escape_discord (Some "a_b*c~d") = "a\_b\*c\~d"
  /\ escape_discord (Some "") = ""
  /\ escape_discord None = "".
Proof.
  split; [|repeat split; reflexivity].
  intros [|c s]; [reflexivity|].
  unfold escape_discord. apply three_passes.
Qed.

End Escaping.

(** ** State messages (discord.py) *)
Section Messages.
Import Py Discord Spec.

(** C6.  State ["OK"] gives exactly the literal recovery record; a state
    that is none of ["OK"], ["WARNING"], ["CRITICAL"] (such as ["FOO"])
    gives the default record, whose description ends in the raw state name
    and whose details are the event's output text (a placeholder when the
    event carries none). *)
Theorem custom_message_ok_and_default (env : environ) :
  get_custom_message env "OK"
  = {| color := 65280;
       emoji := "✅";
       title := "[AWS] Service Recovery";
       description := "The Windows server services are recovered.";
       details := "Every services are working correctly.";
       footer := "System back to normal operation" |}
  /\ (forall state : string,
        state <> "OK" -> state <> "WARNING" -> state <> "CRITICAL" ->
        get_custom_message env state
        = {| color := 3553599;
             emoji := "ℹ️";
             title := "Service Notification";
             description := "Service state changed to " +:+ state;
             details :=
               match NOTIFY_SERVICEOUTPUT env with
               | Some output => output
               | None => "No details available"
               end;
             footer := "CheckMK Monitoring" |}).
Proof.
  split; [reflexivity|].
  intros state H1 H2 H3. unfold get_custom_message.
  apply String.eqb_neq in H1, H2, H3. rewrite H1, H2, H3.
  reflexivity.
Qed.

End Messages.

(** State ["FOO"] with output text ["raw output text"]: the default record
    names the state and carries the text. *)
Lemma custom_message_foo :
  let env :=
    {| Py.NOTIFY_HOSTNAME := Some "srv1";
       Py.NOTIFY_SERVICEDESC := Some "disk";
       Py.NOTIFY_SERVICESTATE := Some "FOO";
       Py.NOTIFY_SERVICEOUTPUT := Some "raw output text";
       Py.NOTIFY_SHORTDATETIME := None |} in
  Discord.description (Discord.get_custom_message env "FOO")
  = "Service state changed to FOO"
  /\ Discord.details (Discord.get_custom_message env "FOO")
     = "raw output text".
Proof.
  intros env.
  destruct (custom_message_ok_and_default env) as [_ H].
  rewrite (H "FOO"); [split; reflexivity | discriminate..].
Defined.

(** ** The duplicate check (discord.py) *)
Section Dedup.
Import Py Discord Spec.

Variable fromtimestamp_float : string -> outcome Z.
Variable repr_timestamp : Z -> string.

Local Abbreviation scan := (Discord.scan fromtimestamp_float).
Local Abbreviation is_duplicate_try :=
  (Discord.is_duplicate_try fromtimestamp_float).
Local Abbreviation is_duplicate_notification :=
  (Discord.is_duplicate_notification fromtimestamp_float).
Local Abbreviation main := (Discord.main fromtimestamp_float repr_timestamp).
Local Abbreviation recently_seen := (Spec.recently_seen fromtimestamp_float).
Local Abbreviation plain_age := (Spec.plain_age fromtimestamp_float).
Local Abbreviation well_formed := (Spec.well_formed fromtimestamp_float).
Local Abbreviation seen_behind_well_formed :=
  (Spec.seen_behind_well_formed fromtimestamp_float).
Local Abbreviation seen_recently := (Spec.seen_recently fromtimestamp_float).

(** The block leaves the world as it found it. *)
Lemma is_duplicate_try_world fp w : snd (is_duplicate_try fp w) = w.
Proof. reflexivity. Qed.

Lemma is_duplicate_notification_eq fp w :
  is_duplicate_notification fp w
  = (Return match fst (is_duplicate_try fp w) with
            | Return b => b
            | Raise _ => false
            end, w).
Proof.
  unfold Discord.is_duplicate_notification, try_except.
  destruct (is_duplicate_try fp w) as [o w'] eqn:E.
  assert (w' = w) by (rewrite <- (is_duplicate_try_world fp w), E; reflexivity).
  subst w'. destruct o; reflexivity.
Qed.

(** Scanning a log in two parts *)
Lemma scan_app now fp pre rest :
  scan now fp (pre ++ rest)
  = match scan now fp pre with
    | Return false => scan now fp rest
    | o => o
    end.
Proof.
  induction pre as [|line pre IH]; [reflexivity|].
  cbn [app Discord.scan].
  destruct (split "|" (strip line)) as [|a [|b [|c l]]]; try reflexivity.
  destruct (String.eqb a fp); [|exact IH].
  destruct (fromtimestamp_float b) as [t|e]; [|reflexivity].
  destruct (seconds (datetime_sub now t) <? DEDUP_WINDOW); [reflexivity|exact IH].
Qed.

(** C8.  The duplicate check always returns a boolean and never raises,
    whatever the dedup log holds; a missing file gives not-duplicate, and
    whenever the scan raises (an unreadable file, a line that does not split
    in two, an unparsable time on a matching line) the check gives
    not-duplicate as well. *)
Theorem duplicate_check_never_raises (fp : string) (w : world) :
  (exists b : bool, is_duplicate_notification fp w = (Return b, w))
  /\ (state_file w = Missing ->
      is_duplicate_notification fp w = (Return false, w))
  /\ (forall e, fst (is_duplicate_try fp w) = Raise e ->
      is_duplicate_notification fp w = (Return false, w))
  /\ (forall text pre bad rest,
        state_file w = Content text ->
        readlines text = pre ++ bad :: rest ->
        scan (now w) fp pre = Return false ->
        two_fields bad = false ->
        fst (is_duplicate_try fp w) = Raise ValueError
        /\ is_duplicate_notification fp w = (Return false, w)).
Proof.
  rewrite is_duplicate_notification_eq.
  split; [eexists; reflexivity|].
  split.
  { intros H. unfold Discord.is_duplicate_try. rewrite H. reflexivity. }
  split.
  { intros e H. rewrite H. reflexivity. }
  intros text pre bad rest Hf Hl Hpre Hbad.
  assert (fst (is_duplicate_try fp w) = Raise ValueError) as E.
  { unfold Discord.is_duplicate_try. rewrite Hf. cbn [fst].
    rewrite Hl, scan_app, Hpre. cbn [Discord.scan].
    unfold two_fields in Hbad.
    destruct (split "|" (strip bad)) as [|a [|b [|c l]]];
      try reflexivity; discriminate. }
  rewrite E. split; reflexivity.
Qed.

(** Inside one day, the [seconds] field of the difference is the whole
    elapsed time in seconds. *)
Lemma seconds_within_a_day now t :
  0 <= now - t < 1000000 * 86400 ->
  (seconds (datetime_sub now t) <? DEDUP_WINDOW)
  = (now - t <? 1000000 * 300).
Proof.
  intros H. unfold datetime_sub, DEDUP_WINDOW. cbn [seconds].
  change 86400000000 with (1000000 * 86400).
  rewrite Z.mod_small by exact H.
  destruct (Z.ltb_spec ((now - t) / 1000000) 300) as [L|L];
    destruct (Z.ltb_spec (now - t) (1000000 * 300)) as [R|R];
    try reflexivity; exfalso.
  - assert (300 <= (now - t) / 1000000)
      by (apply Z.div_le_lower_bound; lia).
    lia.
  - assert ((now - t) / 1000000 < 300)
      by (apply Z.div_lt_upper_bound; lia).
    lia.
Qed.

(** Whole seconds lie below 300 exactly when the microseconds lie below
    300 seconds. *)
Lemma whole_seconds_below d :
  (d / 1000000 <? 300) = (d <? 1000000 * 300).
Proof.
  destruct (Z.ltb_spec (d / 1000000) 300) as [L|L];
    destruct (Z.ltb_spec d (1000000 * 300)) as [R|R];
    try reflexivity; exfalso.
  - assert (300 <= d / 1000000) by (apply Z.div_le_lower_bound; lia).
    lia.
  - assert (d / 1000000 < 300) by (apply Z.div_lt_upper_bound; lia).
    lia.
Qed.

Lemma scan_plain_age now fp lines :
  forallb (plain_age now fp) lines = true ->
  match scan now fp lines with
  | Return b => b
  | Raise _ => false
  end = seen_behind_well_formed now fp lines.
Proof.
  induction lines as [|line lines IH]; [reflexivity|].
  cbn [forallb Discord.scan Spec.seen_behind_well_formed].
  unfold Spec.plain_age, Spec.seen_recently, Spec.well_formed.
  destruct (split "|" (strip line)) as [|a [|b [|c l]]];
    try reflexivity.
  destruct (String.eqb a fp).
  - destruct (fromtimestamp_float b) as [t|e]; [|reflexivity].
    intros H. apply andb_prop in H as [Ht Hrest].
    apply eqb_prop in Ht.
    unfold datetime_sub, DEDUP_WINDOW. cbn [seconds].
    change 86400000000 with (1000000 * 86400).
    rewrite whole_seconds_below, Ht.
    destruct (now - t <? 1000000 * 300); [reflexivity|].
    apply IH, Hrest.
  - intros H. apply IH, H.
Qed.

Lemma seen_behind_all_well_formed now fp lines :
  forallb (well_formed fp) lines = true ->
  seen_behind_well_formed now fp lines = recently_seen now fp lines.
Proof.
  induction lines as [|line lines IH]; [reflexivity|].
  cbn [forallb Spec.seen_behind_well_formed Spec.recently_seen existsb].
  intros H. apply andb_prop in H as [H1 H2].
  rewrite H1, (IH H2). reflexivity.
Qed.

(** What the script does once the check has answered *)
Lemma main_after_check env w :
  main env w
  = if match fst (is_duplicate_try (get_alert_fingerprint env) w) with
       | Return b => b
       | Raise _ => false
       end
    then (Raise (SystemExit 0), w)
    else main env w.
Proof.
  destruct (match fst (is_duplicate_try (get_alert_fingerprint env) w) with
            | Return b => b
            | Raise _ => false
            end) eqn:E; [|reflexivity].
  unfold Discord.main, Discord.main_body, try_except, bind.
  rewrite is_duplicate_notification_eq, E. reflexivity.
Qed.

Lemma main_sends env w :
  match fst (is_duplicate_try (get_alert_fingerprint env) w) with
  | Return b => b
  | Raise _ => false
  end = false ->
  exists p, posted (snd (main env w)) = posted w ++ [p].
Proof.
  intros E.
  unfold Discord.main, Discord.main_body, try_except, bind.
  rewrite is_duplicate_notification_eq, E.
  eexists. unfold send, record_notification, log_error, raise, raise_for_status.
  destruct (webhook w _) as [res|e].
  - destruct ((400 <=? status_code res) && (status_code res <? 600)).
    + reflexivity.
    + cbn [with_posted state_file].
      destruct (state_file w); try reflexivity.
      destruct (is_Exception e); reflexivity.
  - destruct (is_Exception e); reflexivity.
Qed.

(** C1, amended.  Times are readings of the local clock, and the time
    elapsed since a stored time is the difference from its reading to the
    reading at the check.  Take a dedup log that decodes as text and in
    which, for every entry of the fingerprint whose time reads well, the
    elapsed time is below 300 seconds exactly when its remainder modulo one
    day is (so every entry less than a day old qualifies, and an older one
    unless it is within 300 seconds after a whole number of days old).
    Then the check answers duplicate exactly when some stored line carries
    the fingerprint with less than 300 seconds elapsed and every line before
    it is well formed; on a log of well-formed lines only, exactly when
    some stored line carries the fingerprint with less than 300 seconds
    elapsed.  A duplicate ends the script with exit status 0, nothing
    posted and nothing written; otherwise (last seen 300 seconds or more
    ago, or never) the post is issued. *)
Theorem dedup_window_on_decoded_log (fp : string) (w : world) :
  decodes (state_file w) = true ->
  forallb (plain_age (now w) fp) (log_lines w) = true ->
  is_duplicate_notification fp w
  = (Return (seen_behind_well_formed (now w) fp (log_lines w)), w)
  /\ (forallb (well_formed fp) (log_lines w) = true ->
      is_duplicate_notification fp w
      = (Return (recently_seen (now w) fp (log_lines w)), w))
  /\ (forall env, get_alert_fingerprint env = fp ->
      if seen_behind_well_formed (now w) fp (log_lines w)
      then main env w = (Raise (SystemExit 0), w)
           /\ exit_status (fst (main env w)) = 0
      else exists p, posted (snd (main env w)) = posted w ++ [p]).
Proof.
  intros _ Hage.
  assert (match fst (is_duplicate_try fp w) with
          | Return b => b
          | Raise _ => false
          end = seen_behind_well_formed (now w) fp (log_lines w)) as E.
  { unfold Discord.is_duplicate_try, log_lines in *. cbn [fst].
    destruct (state_file w) as [|e|text]; try reflexivity.
    apply scan_plain_age, Hage. }
  rewrite is_duplicate_notification_eq, E.
  split; [reflexivity|]. split.
  - intros Hwf. rewrite seen_behind_all_well_formed by exact Hwf. reflexivity.
  - intros env <-.
    destruct (seen_behind_well_formed _ _ _) eqn:S.
    + rewrite main_after_check, E. split; reflexivity.
    + apply main_sends. exact E.
Qed.

End Dedup.

(** ** The ticketing notifier (glpi.py) *)
Section Ticketing.
Import Py Glpi Spec.

Lemma open_session_eq w :
  open_session w = (opened (api w), with_call GET_initSession w).
Proof.
  unfold open_session, opened, checked, request, bind, lift.
  destruct (initSession (api w)) as [res|e]; [|reflexivity].
  destruct (raise_for_status res); reflexivity.
Qed.

Lemma close_session_eq tok w :
  close_session tok w = (killed (api w) tok, with_call (GET_killSession tok) w).
Proof.
  unfold close_session, killed, request, bind, ret.
  destruct (killSession (api w) tok); reflexivity.
Qed.

Lemma create_ticket_eq tok env w :
  create_ticket tok (host_of env) (service_of env) (state_of env)
    (output_of env) w
  = (created (api w) tok (ticket_of env),
     with_call (POST_Ticket tok (ticket_of env)) w).
Proof.
  unfold create_ticket, created, checked, request, bind, lift, ticket_of.
  destruct (post_Ticket (api w) tok _) as [res|e]; [|reflexivity].
  destruct (raise_for_status res); reflexivity.
Qed.

Lemma close_ticket_eq tok id w :
  close_ticket tok id w
  = (closed (api w) tok id, with_call (PUT_Ticket tok id 6) w).
Proof.
  unfold close_ticket, closed, request, bind, lift.
  destruct (put_Ticket (api w) tok id); reflexivity.
Qed.

(** The [try] block, case by case of the transition table *)
Lemma main_try_eq tok env w :
  main_try tok (host_of env) (service_of env) (state_of env)
    (output_of env) (fingerprint_of env) w
  = match
      transition_table (state_data w !! fingerprint_of env) (state_of env)
    with
    | Create =>
        match created (api w) tok (ticket_of env) with
        | Return id =>
            (Return tt,
             {| api := api w; state_file := state_file w;
                state_data := <[fingerprint_of env := id]> (state_data w);
                calls := calls w ++ [POST_Ticket tok (ticket_of env)];
                stdout :=
                  stdout w
                  ++ ["Created ticket " +:+ pretty id +:+ " for "
                      +:+ fingerprint_of env] |})
        | Raise e =>
            (Raise e, with_call (POST_Ticket tok (ticket_of env)) w)
        end
    | Close id =>
        match closed (api w) tok id with
        | Return _ =>
            (Return tt,
             {| api := api w; state_file := state_file w;
                state_data := delete (fingerprint_of env) (state_data w);
                calls := calls w ++ [PUT_Ticket tok id 6];
                stdout :=
                  stdout w
                  ++ ["Closed ticket " +:+ pretty id +:+ " for "
                      +:+ fingerprint_of env] |})
        | Raise e => (Raise e, with_call (PUT_Ticket tok id 6) w)
        end
    | Nothing => (Return tt, w)
    end.
Proof.
  unfold main_try, transition_table.
  rewrite (orb_comm (String.eqb (state_of env) "WARNING")).
  destruct (String.eqb (state_of env) "CRITICAL"
            || String.eqb (state_of env) "WARNING") eqn:Ealarm.
  - unfold bind at 1. unfold contains at 1. cbv beta.
    destruct (state_data w !! fingerprint_of env) as [id|] eqn:El.
    + reflexivity.
    + replace (bool_decide (is_Some (@None Z))) with false by reflexivity.
      cbn [negb]. unfold bind at 1. rewrite create_ticket_eq.
      destruct (created (api w) tok (ticket_of env)) as [id|e]; reflexivity.
  - destruct (String.eqb (state_of env) "OK") eqn:Eok.
    + unfold bind at 1. unfold contains at 1. cbv beta.
      destruct (state_data w !! fingerprint_of env) as [id|] eqn:El.
      * replace (bool_decide (is_Some (Some id))) with true by reflexivity.
        unfold bind at 1. unfold getitem at 1. rewrite El.
        unfold bind at 1. rewrite close_ticket_eq.
        destruct (closed (api w) tok id) as [[]|e]; [|reflexivity].
        unfold bind, print, delitem. cbn [state_data with_call].
        rewrite El. reflexivity.
      * reflexivity.
    + destruct (state_data w !! _); reflexivity.
Qed.

(** The [try] block does what the transition table says: the request, its
    outcome and the map it leaves. *)
Lemma main_try_table tok env w :
  let a :=
    transition_table (state_data w !! fingerprint_of env) (state_of env) in
  let r :=
    main_try tok (host_of env) (service_of env) (state_of env)
      (output_of env) (fingerprint_of env) w in
  fst r = ticket_outcome (api w) tok env a
  /\ calls (snd r) = calls w ++ ticket_request tok env a
  /\ state_data (snd r) = ticket_record (api w) tok env a (state_data w)
  /\ state_file (snd r) = state_file w
  /\ api (snd r) = api w.
Proof.
  intros a r. subst r. rewrite main_try_eq. fold a.
  unfold ticket_outcome, ticket_record, ticket_request.
  destruct a as [|id|].
  - destruct (created (api w) tok (ticket_of env)); cbn; auto.
  - destruct (closed (api w) tok id) as [[]|e]; cbn; auto.
  - cbn. rewrite app_nil_r. auto.
Qed.

Lemma read_state_eq w : read_state w = (loaded (state_file w), w).
Proof. unfold read_state, loaded. destruct (state_file w); reflexivity. Qed.

Lemma main_unfold env :
  main env
  = (m <- read_state ;;
     (fun w => (Return tt, with_state_data m w)) ;;;
     session <- open_session ;;
     try_finally
       (main_try session (host_of env) (service_of env) (state_of env)
          (output_of env) (fingerprint_of env))
       (main_finally session))%py.
Proof. reflexivity. Qed.

Lemma invoke_eq env srv f m :
  loaded f = Return m ->
  invoke env srv f
  = let w1 := with_call GET_initSession (with_state_data m (boot srv f)) in
    match opened srv with
    | Raise e => (Raise e, w1)
    | Return tok =>
        let (o, w2) :=
          main_try tok (host_of env) (service_of env) (state_of env)
            (output_of env) (fingerprint_of env) w1 in
        let w3 := with_call (GET_killSession tok) w2 in
        match killed (api w2) tok with
        | Return _ =>
            (o, with_state_file (Stored (state_data w3))
                  (with_call (write_STATE_FILE (state_data w3)) w3))
        | Raise e => (Raise e, w3)
        end
    end.
Proof.
  intros Hl. unfold invoke. rewrite main_unfold.
  unfold bind at 1. rewrite read_state_eq.
  change (state_file (boot srv f)) with f. rewrite Hl.
  unfold bind at 1. unfold bind at 1. rewrite open_session_eq.
  change (api (with_state_data m (boot srv f))) with srv.
  cbv zeta.
  destruct (opened srv) as [tok|e]; [|reflexivity].
  unfold try_finally.
  destruct (main_try tok _ _ _ _ _ _) as [o w2].
  unfold main_finally, bind. rewrite close_session_eq.
  destruct (killed (api w2) tok) as [[]|e]; reflexivity.
Qed.

(** One invocation, phase by phase: the session, the ticket request the
    table asks for, the session close, the state write. *)
Lemma invoke_phases env srv f m :
  loaded f = Return m ->
  let r := invoke env srv f in
  let a := transition_table (m !! fingerprint_of env) (state_of env) in
  match opened srv with
  | Raise e =>
      fst r = Raise e
      /\ calls (snd r) = [GET_initSession]
      /\ state_data (snd r) = m
      /\ state_file (snd r) = f
  | Return tok =>
      state_data (snd r) = ticket_record srv tok env a m
      /\ match killed srv tok with
         | Raise e =>
             fst r = Raise e
             /\ calls (snd r)
                = GET_initSession
                  :: ticket_request tok env a ++ [GET_killSession tok]
             /\ state_file (snd r) = f
         | Return _ =>
             fst r = ticket_outcome srv tok env a
             /\ calls (snd r)
                = GET_initSession
                  :: ticket_request tok env a
                  ++ [GET_killSession tok;
                      write_STATE_FILE (ticket_record srv tok env a m)]
             /\ state_file (snd r) = Stored (ticket_record srv tok env a m)
         end
  end.
Proof.
  intros Hl r a. subst r. rewrite (invoke_eq env srv f m Hl). cbv zeta.
  destruct (opened srv) as [tok|e]; [|cbn; auto].
  set (w1 := with_call GET_initSession (with_state_data m (boot srv f))).
  destruct (main_try_table tok env w1) as (Ho & Hc & Hd & Hf & Ha).
  change (state_data w1) with m in Ho, Hc, Hd. fold a in Ho, Hc, Hd.
  change (api w1) with srv in Ho, Hd, Ha.
  change (calls w1) with [GET_initSession] in Hc.
  change (state_file w1) with f in Hf.
  destruct (main_try tok (host_of env) (service_of env) (state_of env)
              (output_of env) (fingerprint_of env) w1) as [o w2].
  cbn [fst snd] in Ho, Hc, Hd, Hf, Ha. rewrite Ha.
  destruct (killed srv tok) as [[]|e];
    cbn [fst snd state_data calls state_file with_call with_state_file];
    rewrite Hd, Hc, ?Ho, ?Hf; rewrite <- ?app_assoc; auto.
Qed.

Lemma ticket_request_all tok env a :
  forallb is_ticket_call (ticket_request tok env a) = true.
Proof. destruct a; reflexivity. Qed.

Lemma filter_ticket_calls tok env a rest :
  List.filter is_ticket_call rest = [] ->
  List.filter is_ticket_call
    (GET_initSession :: ticket_request tok env a ++ rest)
  = ticket_request tok env a.
Proof.
  intros Hrest. cbn [List.filter is_ticket_call].
  rewrite List.filter_app, Hrest, app_nil_r.
  destruct a; reflexivity.
Qed.

Lemma alarm_row (state : string) :
  state = "WARNING" \/ state = "CRITICAL" ->
  String.eqb state "WARNING" || String.eqb state "CRITICAL" = true.
Proof. intros [-> | ->]; reflexivity. Qed.

Lemma other_row (state : string) :
  state <> "WARNING" -> state <> "CRITICAL" ->
  String.eqb state "WARNING" || String.eqb state "CRITICAL" = false.
Proof.
  intros H1 H2. apply String.eqb_neq in H1, H2. rewrite H1, H2. reflexivity.
Qed.

(** The ticket requests of one invocation are those of the table, and the
    map it leaves is the table's. *)
Lemma invoke_table env srv f m tok :
  loaded f = Return m ->
  opened srv = Return tok ->
  let r := invoke env srv f in
  let a := transition_table (m !! fingerprint_of env) (state_of env) in
  List.filter is_ticket_call (calls (snd r)) = ticket_request tok env a
  /\ state_data (snd r) = ticket_record srv tok env a m
  /\ (killed srv tok = Return tt ->
      state_file (snd r) = Stored (state_data (snd r))).
Proof.
  intros Hl Ho r a.
  pose proof (invoke_phases env srv f m Hl) as H. cbv zeta in H.
  rewrite Ho in H. fold r a in H. destruct H as [Hd H].
  destruct (killed srv tok) as [[]|e]; destruct H as (_ & Hc & Hf).
  - rewrite Hc, Hd, Hf.
    split; [|split; [reflexivity|reflexivity]].
    apply filter_ticket_calls; reflexivity.
  - rewrite Hc, Hd.
    split; [|split; [reflexivity|discriminate]].
    apply filter_ticket_calls; reflexivity.
Qed.

(** C2.  The ticketing notifier follows the transition table, for every
    starting ticket map and event, once the map is loaded and the session
    open.  No entry and WARNING or CRITICAL: exactly one create request, and
    the id it returns is recorded under the fingerprint.  Entry present and
    WARNING or CRITICAL: no ticket request, map unchanged.  Entry present
    and OK: one close request for the recorded ticket, and when it succeeds
    the entry is removed.  No entry and OK: nothing.  Any other state:
    nothing.  The map left is the one written to the state file when the
    session close returns. *)
Theorem ticket_transition_table env srv f m tok :
  loaded f = Return m ->
  opened srv = Return tok ->
  let fp := fingerprint_of env in
  let state := state_of env in
  let r := invoke env srv f in
  let requests := List.filter is_ticket_call (calls (snd r)) in
  (m !! fp = None -> state = "WARNING" \/ state = "CRITICAL" ->
   requests = [POST_Ticket tok (ticket_of env)]
   /\ forall id, created srv tok (ticket_of env) = Return id ->
                 state_data (snd r) = <[fp := id]> m)
  /\ (forall id, m !! fp = Some id ->
      state = "WARNING" \/ state = "CRITICAL" ->
      requests = [] /\ state_data (snd r) = m)
  /\ (forall id, m !! fp = Some id -> state = "OK" ->
      requests = [PUT_Ticket tok id 6]
      /\ (closed srv tok id = Return tt ->
          state_data (snd r) = delete fp m))
  /\ (m !! fp = None -> state = "OK" ->
      requests = [] /\ state_data (snd r) = m)
  /\ (state <> "WARNING" -> state <> "CRITICAL" -> state <> "OK" ->
      requests = [] /\ state_data (snd r) = m)
  /\ (killed srv tok = Return tt ->
      state_file (snd r) = Stored (state_data (snd r))).
Proof.
  intros Hl Ho fp state r requests.
  destruct (invoke_table env srv f m tok Hl Ho) as (Hc & Hd & Hf).
  fold r fp state requests in Hc, Hd, Hf.
  assert (forall a, transition_table (m !! fp) state = a ->
                    requests = ticket_request tok env a
                    /\ state_data (snd r) = ticket_record srv tok env a m)
    as Hrow by (intros a <-; split; assumption).
  split; [|split; [|split; [|split; [|split]]]].
  - intros Hn Hs. destruct (Hrow Create) as [-> Hd'].
    { unfold transition_table. rewrite Hn, (alarm_row state Hs). reflexivity. }
    split; [reflexivity|]. intros id Hid. rewrite Hd'.
    cbn [ticket_record]. rewrite Hid. reflexivity.
  - intros id Hin Hs. apply (Hrow Nothing).
    unfold transition_table. rewrite Hin, (alarm_row state Hs). reflexivity.
  - intros id Hin Hs. destruct (Hrow (Close id)) as [-> Hd'].
    { unfold transition_table. rewrite Hin, Hs. reflexivity. }
    split; [reflexivity|]. intros Hcl. rewrite Hd'.
    cbn [ticket_record]. rewrite Hcl. reflexivity.
  - intros Hn Hs. apply (Hrow Nothing).
    unfold transition_table. rewrite Hn, Hs. reflexivity.
  - intros H1 H2 H3. apply (Hrow Nothing).
    unfold transition_table. rewrite (other_row state H1 H2).
    apply String.eqb_neq in H3. rewrite H3.
    destruct (m !! fp); reflexivity.
  - exact Hf.
Qed.

(** C4.  Once a session is open, the session-close request is issued
    exactly once on every way out of the invocation, after whatever ticket
    request was made and before anything else; when the ticket creation or
    the ticket closing raises, the close request has been issued by the time
    the invocation ends in an exception. *)
Theorem session_closed_on_every_path env srv f m tok :
  loaded f = Return m ->
  opened srv = Return tok ->
  let fp := fingerprint_of env in
  let r := invoke env srv f in
  (exists requests writes,
      calls (snd r)
      = GET_initSession :: requests ++ GET_killSession tok :: writes
      /\ forallb is_ticket_call requests = true
      /\ forallb is_write writes = true)
  /\ (forall e,
        m !! fp = None ->
        state_of env = "WARNING" \/ state_of env = "CRITICAL" ->
        created srv tok (ticket_of env) = Raise e ->
        calls (snd r)
        = [GET_initSession; POST_Ticket tok (ticket_of env);
           GET_killSession tok]
          ++ List.filter is_write (calls (snd r))
        /\ fst r = match killed srv tok with
                   | Return _ => Raise e
                   | Raise e' => Raise e'
                   end)
  /\ (forall id e,
        m !! fp = Some id ->
        state_of env = "OK" ->
        closed srv tok id = Raise e ->
        calls (snd r)
        = [GET_initSession; PUT_Ticket tok id 6; GET_killSession tok]
          ++ List.filter is_write (calls (snd r))
        /\ fst r = match killed srv tok with
                   | Return _ => Raise e
                   | Raise e' => Raise e'
                   end).
Proof.
  intros Hl Ho fp r.
  pose proof (invoke_phases env srv f m Hl) as H. cbv zeta in H.
  rewrite Ho in H. fold r fp in H. destruct H as [_ H].
  split; [|split].
  - exists (ticket_request tok env
              (transition_table (m !! fp) (state_of env))).
    destruct (killed srv tok) as [[]|e]; destruct H as (_ & Hc & _).
    + eexists. split; [exact Hc|].
      split; [apply ticket_request_all|reflexivity].
    + exists []. split; [exact Hc|].
      split; [apply ticket_request_all|reflexivity].
  - intros e Hn Hs He.
    assert (transition_table (m !! fp) (state_of env) = Create) as Ht
      by (unfold transition_table; rewrite Hn, (alarm_row _ Hs); reflexivity).
    rewrite Ht in H. cbn [ticket_request ticket_outcome] in H.
    rewrite He in H.
    destruct (killed srv tok) as [[]|e']; destruct H as (Hr & Hc & _);
      rewrite Hc, Hr; split; reflexivity.
  - intros id e Hin Hs He.
    assert (transition_table (m !! fp) (state_of env) = Close id) as Ht
      by (unfold transition_table; rewrite Hin, Hs; reflexivity).
    rewrite Ht in H. cbn [ticket_request ticket_outcome] in H.
    rewrite He in H.
    destruct (killed srv tok) as [[]|e']; destruct H as (Hr & Hc & _);
      rewrite Hc, Hr; split; reflexivity.
Qed.

(** The map an action leaves differs from the loaded one at the event's
    fingerprint only. *)
Lemma ticket_record_other srv tok env a (m : gmap string Z) k :
  k <> fingerprint_of env ->
  ticket_record srv tok env a m !! k = m !! k.
Proof.
  intros Hk. unfold ticket_record. destruct a as [|id|].
  - destruct (created srv tok (ticket_of env)); [|reflexivity].
    apply lookup_insert_ne. congruence.
  - destruct (closed srv tok id); [|reflexivity].
    apply lookup_delete_ne. congruence.
  - reflexivity.
Qed.

(** C5, amended.  Take an invocation that loads the map (a missing state
    file loads as the empty map), opens the session, and whose session close
    returns.  Then the whole map is written back as the last step, right
    after the session close, whether or not the ticket request changed it
    and whether or not that request raised; every entry of the loaded map
    under another fingerprint is in the written map, and when the ticket
    request raised the written map is the loaded one. *)
Theorem state_written_after_session_close env srv f m tok :
  loaded f = Return m ->
  opened srv = Return tok ->
  killed srv tok = Return tt ->
  let r := invoke env srv f in
  let a := transition_table (m !! fingerprint_of env) (state_of env) in
  loaded Absent = Return ∅
  /\ (exists requests,
        calls (snd r)
        = GET_initSession :: requests
          ++ [GET_killSession tok; write_STATE_FILE (state_data (snd r))]
        /\ forallb is_ticket_call requests = true)
  /\ state_file (snd r) = Stored (state_data (snd r))
  /\ (forall k, k <> fingerprint_of env -> state_data (snd r) !! k = m !! k)
  /\ fst r = ticket_outcome srv tok env a
  /\ (forall e, ticket_outcome srv tok env a = Raise e ->
      state_data (snd r) = m).
Proof.
  intros Hl Ho Hk r a.
  pose proof (invoke_phases env srv f m Hl) as H. cbv zeta in H.
  rewrite Ho, Hk in H. fold r a in H. destruct H as (Hd & Hr & Hc & Hf).
  split; [reflexivity|]. split.
  { exists (ticket_request tok env a). rewrite Hd.
    split; [exact Hc|apply ticket_request_all]. }
  split; [rewrite Hd; exact Hf|]. split.
  { intros k Hne. rewrite Hd. apply ticket_record_other, Hne. }
  split; [exact Hr|].
  intros e He. rewrite Hd. unfold ticket_outcome, ticket_record in *.
  destruct a as [|id|].
  - destruct (created srv tok (ticket_of env)); [discriminate|reflexivity].
  - destruct (closed srv tok id); [discriminate|reflexivity].
  - reflexivity.
Qed.

(** C10.  When opening the session raises, the invocation ends in that
    exception with no request but the session one, no state write, and the
    state file as it was; when the session close raises, the invocation ends
    in that exception with no state write and the state file as it was. *)
Theorem no_state_write_when_session_fails env srv f m :
  loaded f = Return m ->
  let r := invoke env srv f in
  (forall e, opened srv = Raise e ->
     fst r = Raise e
     /\ calls (snd r) = [GET_initSession]
     /\ state_file (snd r) = f)
  /\ (forall tok e, opened srv = Return tok -> killed srv tok = Raise e ->
     fst r = Raise e
     /\ List.filter is_write (calls (snd r)) = []
     /\ state_file (snd r) = f).
Proof.
  intros Hl r.
  pose proof (invoke_phases env srv f m Hl) as H. cbv zeta in H. fold r in H.
  split.
  - intros e He. rewrite He in H. destruct H as (Hr & Hc & _ & Hf). auto.
  - intros tok e Ho Hk. rewrite Ho, Hk in H.
    destruct H as (_ & Hr & Hc & Hf).
    split; [exact Hr|]. split; [|exact Hf].
    rewrite Hc. cbn [List.filter is_write]. rewrite List.filter_app.
    destruct (transition_table _ _); reflexivity.
Qed.

Lemma table_create entry state :
  transition_table entry state = Create -> entry = None.
Proof.
  unfold transition_table. destruct entry; [|reflexivity].
  destruct (_ || _); [discriminate|]. destruct (String.eqb _ _); discriminate.
Qed.

Lemma table_close entry state id :
  transition_table entry state = Close id -> entry = Some id.
Proof.
  unfold transition_table. destruct entry as [id'|].
  - destruct (_ || _); [discriminate|].
    destruct (String.eqb _ _); [|discriminate]. congruence.
  - destruct (_ || _); discriminate.
Qed.

(** A ticket request in the calls of an invocation is the table's. *)
Lemma ticket_call_in_invoke env srv f m c :
  loaded f = Return m ->
  In c (calls (snd (invoke env srv f))) ->
  is_ticket_call c = true ->
  exists tok,
    opened srv = Return tok
    /\ ticket_request tok env
         (transition_table (m !! fingerprint_of env) (state_of env))
       = [c].
Proof.
  intros Hl Hin Hc.
  pose proof (invoke_phases env srv f m Hl) as H. cbv zeta in H.
  destruct (opened srv) as [tok|e].
  - exists tok. split; [reflexivity|]. destruct H as [_ H].
    assert (In c (GET_initSession
                    :: ticket_request tok env
                         (transition_table (m !! fingerprint_of env)
                            (state_of env))
                    ++ [GET_killSession tok])
            \/ exists d, c = write_STATE_FILE d) as [Hin'|[d ->]].
    { destruct (killed srv tok) as [[]|e]; destruct H as (_ & H & _);
        rewrite H in Hin; [|left; exact Hin].
      destruct Hin as [<-|Hin]; [left; left; reflexivity|].
      apply in_app_or in Hin as [Hin|[<-|[<-|[]]]].
      - left. right. apply in_or_app. left. exact Hin.
      - left. right. apply in_or_app. right. left. reflexivity.
      - right. eexists. reflexivity. }
    + destruct Hin' as [<-|Hin']; [discriminate|].
      apply in_app_or in Hin' as [Hin'|[<-|[]]]; [|discriminate].
      destruct (transition_table _ _); cbn in *.
      * destruct Hin' as [<-|[]]. reflexivity.
      * destruct Hin' as [<-|[]]. reflexivity.
      * destruct Hin'.
    + discriminate.
  - destruct H as (_ & H & _). rewrite H in Hin.
    destruct Hin as [<-|[]]. discriminate.
Qed.

(** One invocation with a session closed without error keeps the open
    tickets and the stored map in step. *)
Lemma history_step env srv f (m : gmap string Z) (open : string -> list Z) :
  loaded f = Return m ->
  (forall fp, open fp = option_list (m !! fp)) ->
  (forall session, opened srv = Return session ->
                   killed srv session = Return tt) ->
  exists m' : gmap string Z,
    loaded (state_file (snd (invoke env srv f))) = Return m'
    /\ forall fp,
        settle env srv (calls (snd (invoke env srv f))) open fp
        = option_list (m' !! fp).
Proof.
  intros Hl Ho Hclose.
  pose proof (invoke_phases env srv f m Hl) as H. cbv zeta in H.
  destruct (opened srv) as [tok|e].
  - rewrite (Hclose tok eq_refl) in H. destruct H as (_ & _ & Hc & Hf).
    rewrite Hc, Hf. eexists. split; [reflexivity|]. intros fp.
    unfold settle. cbn [fold_left tally]. rewrite fold_left_app.
    cbn [fold_left tally].
    destruct (transition_table (m !! fingerprint_of env) (state_of env))
      as [|id|] eqn:E; cbn [ticket_request ticket_record fold_left tally].
    + apply table_create in E.
      destruct (created srv tok (ticket_of env)) as [id|e]; [|apply Ho].
      destruct (String.eqb_spec fp (fingerprint_of env)) as [->|Hne].
      * rewrite lookup_insert_eq, Ho, E. reflexivity.
      * rewrite lookup_insert_ne by congruence. apply Ho.
    + apply table_close in E.
      destruct (closed srv tok id) as [[]|e]; [|apply Ho].
      destruct (String.eqb_spec fp (fingerprint_of env)) as [->|Hne].
      * rewrite lookup_delete_eq, Ho, E. cbn.
        destruct (Z.eq_dec id id); [reflexivity|congruence].
      * rewrite lookup_delete_ne by congruence. apply Ho.
    + apply Ho.
  - destruct H as (_ & Hc & _ & Hf). rewrite Hc, Hf.
    exists m. split; [exact Hl|]. intros fp. apply Ho.
Qed.

(** C3.  The ticket map holds at most one ticket id per fingerprint and
    every invocation keeps it so.  A create request is only issued when the
    loaded map has no entry for the event's fingerprint; a close request is
    only issued for the ticket recorded under it, and once it succeeds the
    key is gone; entries under other fingerprints are untouched and a
    recorded id is never replaced by another; what reaches the state file is
    that map.  So every state file reached from a loadable one is loadable
    and gives each fingerprint at most one ticket id; and along a history
    whose sessions all close without error, the tickets open for a
    fingerprint are exactly the map's entry for it, hence at most one. *)
Theorem one_ticket_per_fingerprint :
  (forall env srv f m,
      loaded f = Return m ->
      let r := invoke env srv f in
      let fp := fingerprint_of env in
      (forall tok input,
          In (POST_Ticket tok input) (calls (snd r)) -> m !! fp = None)
      /\ (forall tok id st,
          In (PUT_Ticket tok id st) (calls (snd r)) ->
          m !! fp = Some id
          /\ (closed srv tok id = Return tt ->
              state_data (snd r) !! fp = None))
      /\ (forall k, k <> fp -> state_data (snd r) !! k = m !! k)
      /\ (forall id, m !! fp = Some id ->
          state_data (snd r) !! fp = Some id
          \/ state_data (snd r) !! fp = None)
      /\ (state_file (snd r) = f
          \/ state_file (snd r) = Stored (state_data (snd r))))
  /\ (forall f0 f m0,
      loaded f0 = Return m0 ->
      reachable f0 f ->
      exists m : gmap string Z,
        loaded f = Return m
        /\ forall fp id1 id2,
            m !! fp = Some id1 -> m !! fp = Some id2 -> id1 = id2)
  /\ (forall f open,
      history f open ->
      exists m : gmap string Z,
        loaded f = Return m
        /\ forall fp,
            open fp = option_list (m !! fp) /\ (length (open fp) <= 1)%nat).
Proof.
  assert (forall env srv f m,
      loaded f = Return m ->
      let r := invoke env srv f in
      state_file (snd r) = f
      \/ state_file (snd r) = Stored (state_data (snd r))) as Hfile.
  { intros env srv f m Hl r.
    pose proof (invoke_phases env srv f m Hl) as H. cbv zeta in H.
    fold r in H. destruct (opened srv) as [tok|e].
    - destruct H as [Hd H].
      destruct (killed srv tok) as [[]|e]; destruct H as (_ & _ & Hf).
      + right. rewrite Hd. exact Hf.
      + left. exact Hf.
    - left. apply H. }
  split.
  - intros env srv f m Hl r fp.
    pose proof (invoke_phases env srv f m Hl) as H. cbv zeta in H.
    fold r fp in H.
    split; [|split; [|split; [|split]]].
    + intros tok input Hin.
      destruct (ticket_call_in_invoke env srv f m _ Hl Hin eq_refl)
        as (tok' & _ & Ht).
      fold fp in Ht.
      destruct (transition_table (m !! fp) (state_of env)) eqn:E;
        try discriminate.
      apply table_create in E. exact E.
    + intros tok id st Hin.
      destruct (ticket_call_in_invoke env srv f m _ Hl Hin eq_refl)
        as (tok' & Ho & Ht).
      fold fp in Ht.
      destruct (transition_table (m !! fp) (state_of env)) eqn:E;
        try discriminate.
      cbn in Ht. injection Ht as <- <- <-.
      split; [apply table_close in E; exact E|].
      intros Hcl. rewrite Ho in H. destruct H as [Hd _].
      rewrite Hd. cbn [ticket_record]. rewrite Hcl.
      apply lookup_delete_eq.
    + intros k Hk. destruct (opened srv) as [tok|e].
      * destruct H as [Hd _]. rewrite Hd.
        apply ticket_record_other, Hk.
      * destruct H as (_ & _ & Hd & _). rewrite Hd. reflexivity.
    + intros id Hid. destruct (opened srv) as [tok|e].
      * destruct H as [Hd _]. rewrite Hd.
        unfold ticket_record, transition_table. rewrite Hid.
        destruct (_ || _); [left; exact Hid|].
        destruct (String.eqb _ _); [|left; exact Hid].
        destruct (closed srv tok id); [right|left; exact Hid].
        apply lookup_delete_eq.
      * destruct H as (_ & _ & Hd & _). rewrite Hd. left. exact Hid.
    + apply (Hfile env srv f m Hl).
  - split.
    + intros f0 f m0 Hl0 Hreach.
      assert (exists m : gmap string Z, loaded f = Return m) as [m Hm].
      { induction Hreach as [|f env srv _ [m Hm]]; [eauto|].
        destruct (Hfile env srv f m Hm) as [E|E]; rewrite E; eauto. }
      exists m. split; [exact Hm|]. congruence.
    + intros f open Hist.
      assert (exists m : gmap string Z,
                 loaded f = Return m
                 /\ forall fp, open fp = option_list (m !! fp))
        as (m & Hm & Ho).
      { induction Hist as [|f open env srv _ (m & Hm & Ho) Hclose].
        - exists ∅. split; [reflexivity|]. intros fp.
          rewrite lookup_empty. reflexivity.
        - apply (history_step env srv f m open Hm Ho Hclose). }
      exists m. split; [exact Hm|]. intros fp. split; [apply Ho|].
      rewrite Ho. destruct (m !! fp); cbn; lia.
Qed.

End Ticketing.

(** * Worked runs *)

(** ** The chat notifier *)

(** Behind an entry of the fingerprint more than eleven days old and a
    foreign one, an entry 99.5 seconds old suppresses the event: exit status
    0, nothing posted, nothing written. *)
Lemma dedup_window_on_decoded_log_run :
  Discord.main Decimal.fromtimestamp_float Decimal.repr_timestamp
    Spec.sample_event (Spec.dedup_world 1700000100000000 Spec.aged_log)
  = (Py.Raise (Py.SystemExit 0),
     Spec.dedup_world 1700000100000000 Spec.aged_log).
Proof.
  assert (Discord.get_alert_fingerprint Spec.sample_event
          = Spec.sample_fingerprint) as E by (vm_compute; reflexivity).
  assert (Spec.decodes
            (Discord.state_file
               (Spec.dedup_world 1700000100000000 Spec.aged_log)) = true)
    as Htext by (vm_compute; reflexivity).
  assert (forallb
            (Spec.plain_age Decimal.fromtimestamp_float 1700000100000000
               Spec.sample_fingerprint)
            (Spec.log_lines
               (Spec.dedup_world 1700000100000000 Spec.aged_log)) = true)
    as Hage by (vm_compute; reflexivity).
  destruct (dedup_window_on_decoded_log Decimal.fromtimestamp_float
              Decimal.repr_timestamp Spec.sample_fingerprint
              (Spec.dedup_world 1700000100000000 Spec.aged_log) Htext Hage)
    as (_ & _ & H).
  specialize (H Spec.sample_event E).
  destruct (Spec.seen_behind_well_formed _ _ _ _) eqn:S in H.
  - exact (proj1 H).
  - vm_compute in S. discriminate S.
Defined.

(** C1 as worded fails behind a line that is no record: the log stores the
    fingerprint with 99.5 seconds elapsed, yet the check answers
    not-duplicate and the event is posted. *)
Lemma dedup_fails_open_behind_broken_line :
  Spec.recently_seen Decimal.fromtimestamp_float 1700000100000000
    Spec.sample_fingerprint (Py.readlines Spec.broken_log) = true
  /\ fst (Discord.is_duplicate_notification Decimal.fromtimestamp_float
            Spec.sample_fingerprint
            (Spec.dedup_world 1700000100000000 Spec.broken_log))
     = Py.Return false
  /\ length
       (Discord.posted
          (snd (Discord.main Decimal.fromtimestamp_float
                  Decimal.repr_timestamp Spec.sample_event
                  (Spec.dedup_world 1700000100000000 Spec.broken_log))))
     = 1%nat.
Proof. vm_compute. repeat split; reflexivity. Qed.

(** The [seconds] field drops whole days: an entry one day and ten seconds
    old counts as ten seconds old, and the event is suppressed. *)
Lemma day_old_entry_taken_for_recent :
  Spec.recently_seen Decimal.fromtimestamp_float
    (1700000000000000 + 1000000 * 86410)
    Spec.sample_fingerprint (Py.readlines Spec.single_log) = false
  /\ Py.seconds (Py.datetime_sub (1700000000000000 + 1000000 * 86410)
                   1700000000000000) = 10
  /\ fst (Discord.main Decimal.fromtimestamp_float Decimal.repr_timestamp
            Spec.sample_event
            (Spec.dedup_world (1700000000000000 + 1000000 * 86410)
               Spec.single_log))
     = Py.Raise (Py.SystemExit 0).
Proof. vm_compute. repeat split; reflexivity. Qed.

(** The check over the broken log: the scan raises, the check returns. *)
Lemma duplicate_check_never_raises_run :
  fst (Discord.is_duplicate_try Decimal.fromtimestamp_float
         Spec.sample_fingerprint
         (Spec.dedup_world 1700000100000000 Spec.broken_log))
  = Py.Raise Py.ValueError
  /\ Discord.is_duplicate_notification Decimal.fromtimestamp_float
       Spec.sample_fingerprint
       (Spec.dedup_world 1700000100000000 Spec.broken_log)
     = (Py.Return false, Spec.dedup_world 1700000100000000 Spec.broken_log).
Proof.
  destruct (duplicate_check_never_raises Decimal.fromtimestamp_float
              Spec.sample_fingerprint
              (Spec.dedup_world 1700000100000000 Spec.broken_log))
    as (_ & _ & _ & H).
  apply (H Spec.broken_log [] ("not a record" +:+ String Py.LF "")
           [Spec.entry Spec.sample_fingerprint "1700000000.5"]);
    reflexivity.
Defined.

(** ** The ticketing notifier *)

(** The life of one ticket for fingerprint [host1_svcA]: CRITICAL with no
    entry creates ticket 7 and records it; WARNING creates nothing more; OK
    closes ticket 7 and removes the entry; a second OK does nothing. *)
Lemma ticket_transition_table_run :
  (List.filter Spec.is_ticket_call
     (Glpi.calls
        (snd (Glpi.invoke (Spec.event "host1" "svcA" "CRITICAL")
                (Spec.helpful 7) Glpi.Absent)))
   = [Glpi.POST_Ticket "s3ss10n"
        (Spec.ticket_of (Spec.event "host1" "svcA" "CRITICAL"))]
   /\ Glpi.state_file
        (snd (Glpi.invoke (Spec.event "host1" "svcA" "CRITICAL")
                (Spec.helpful 7) Glpi.Absent))
      = Glpi.Stored {[ "host1_svcA" := 7 ]})
  /\ (List.filter Spec.is_ticket_call
        (Glpi.calls
           (snd (Glpi.invoke (Spec.event "host1" "svcA" "WARNING")
                   (Spec.helpful 8) (Glpi.Stored {[ "host1_svcA" := 7 ]}))))
      = []
      /\ Glpi.state_data
           (snd (Glpi.invoke (Spec.event "host1" "svcA" "WARNING")
                   (Spec.helpful 8) (Glpi.Stored {[ "host1_svcA" := 7 ]})))
         = {[ "host1_svcA" := 7 ]})
  /\ (List.filter Spec.is_ticket_call
        (Glpi.calls
           (snd (Glpi.invoke (Spec.event "host1" "svcA" "OK")
                   (Spec.helpful 8) (Glpi.Stored {[ "host1_svcA" := 7 ]}))))
      = [Glpi.PUT_Ticket "s3ss10n" 7 6]
      /\ Glpi.state_data
           (snd (Glpi.invoke (Spec.event "host1" "svcA" "OK")
                   (Spec.helpful 8) (Glpi.Stored {[ "host1_svcA" := 7 ]})))
         = delete "host1_svcA" {[ "host1_svcA" := 7 ]})
  /\ (List.filter Spec.is_ticket_call
        (Glpi.calls
           (snd (Glpi.invoke (Spec.event "host1" "svcA" "OK")
                   (Spec.helpful 8) (Glpi.Stored ∅))))
      = []
      /\ Glpi.state_data
           (snd (Glpi.invoke (Spec.event "host1" "svcA" "OK")
                   (Spec.helpful 8) (Glpi.Stored ∅)))
         = ∅).
Proof.
  split; [|split; [|split]].
  - destruct (ticket_transition_table (Spec.event "host1" "svcA" "CRITICAL")
                (Spec.helpful 7) Glpi.Absent ∅ "s3ss10n" eq_refl eq_refl)
      as (H1 & _ & _ & _ & _ & H6).
    destruct H1 as [Hreq Hrec]; [reflexivity|right; reflexivity|].
    split; [exact Hreq|].
    rewrite (H6 eq_refl), (Hrec 7 eq_refl). reflexivity.
  - destruct (ticket_transition_table (Spec.event "host1" "svcA" "WARNING")
                (Spec.helpful 8) (Glpi.Stored {[ "host1_svcA" := 7 ]})
                {[ "host1_svcA" := 7 ]} "s3ss10n" eq_refl eq_refl)
      as (_ & H2 & _).
    apply (H2 7); [reflexivity|left; reflexivity].
  - destruct (ticket_transition_table (Spec.event "host1" "svcA" "OK")
                (Spec.helpful 8) (Glpi.Stored {[ "host1_svcA" := 7 ]})
                {[ "host1_svcA" := 7 ]} "s3ss10n" eq_refl eq_refl)
      as (_ & _ & H3 & _).
    destruct (H3 7) as [Hreq Hrec]; [reflexivity|reflexivity|].
    split; [exact Hreq|exact (Hrec eq_refl)].
  - destruct (ticket_transition_table (Spec.event "host1" "svcA" "OK")
                (Spec.helpful 8) (Glpi.Stored ∅) ∅ "s3ss10n" eq_refl eq_refl)
      as (_ & _ & _ & H4 & _).
    apply H4; reflexivity.
Defined.

(** A create request is made from an empty map only, and the id it returns
    is what the file holds afterwards. *)
Lemma one_ticket_per_fingerprint_run :
  (∅ : gmap string Z) !! "host1_svcA" = None
  /\ exists m : gmap string Z,
       Spec.loaded
         (Glpi.state_file
            (snd (Glpi.invoke (Spec.event "host1" "svcA" "CRITICAL")
                    (Spec.helpful 7) Glpi.Absent)))
       = Py.Return m.
Proof.
  destruct one_ticket_per_fingerprint as (Hstep & Hreach & _). split.
  - destruct (Hstep (Spec.event "host1" "svcA" "CRITICAL") (Spec.helpful 7)
                Glpi.Absent ∅ eq_refl) as (Hpost & _).
    apply (Hpost "s3ss10n"
             (Spec.ticket_of (Spec.event "host1" "svcA" "CRITICAL"))).
    right. left. reflexivity.
  - destruct (Hreach Glpi.Absent
                (Glpi.state_file
                   (snd (Glpi.invoke (Spec.event "host1" "svcA" "CRITICAL")
                           (Spec.helpful 7) Glpi.Absent)))
                ∅ eq_refl) as (m & Hm & _).
    + apply Spec.reach_invoke, Spec.reach_start.
    + exists m. exact Hm.
Defined.

(** The create request fails with status 500: the session is closed, then
    the unchanged map is written, and the error comes out. *)
Lemma session_closed_on_every_path_run :
  Glpi.calls
    (snd (Glpi.invoke (Spec.event "host1" "svcA" "CRITICAL")
            Spec.failing_tickets Glpi.Absent))
  = [Glpi.GET_initSession;
     Glpi.POST_Ticket "s3ss10n"
       (Spec.ticket_of (Spec.event "host1" "svcA" "CRITICAL"));
     Glpi.GET_killSession "s3ss10n";
     Glpi.write_STATE_FILE ∅]
  /\ fst (Glpi.invoke (Spec.event "host1" "svcA" "CRITICAL")
            Spec.failing_tickets Glpi.Absent)
     = Py.Raise Py.HTTPError.
Proof.
  destruct (session_closed_on_every_path
              (Spec.event "host1" "svcA" "CRITICAL") Spec.failing_tickets
              Glpi.Absent ∅ "s3ss10n" eq_refl eq_refl) as (_ & H & _).
  destruct (H Py.HTTPError) as [Hc Hr];
    [reflexivity|right; reflexivity|reflexivity|].
  split; [|exact Hr]. rewrite Hc. reflexivity.
Defined.

Lemma state_written_after_session_close_run :
  Glpi.state_file
    (snd (Glpi.invoke (Spec.event "host1" "svcA" "CRITICAL")
            Spec.failing_tickets (Glpi.Stored {[ "host2_svcB" := 3 ]})))
  = Glpi.Stored {[ "host2_svcB" := 3 ]}.
Proof.
  destruct (state_written_after_session_close
              (Spec.event "host1" "svcA" "CRITICAL") Spec.failing_tickets
              (Glpi.Stored {[ "host2_svcB" := 3 ]}) {[ "host2_svcB" := 3 ]}
              "s3ss10n" eq_refl eq_refl eq_refl)
    as (_ & _ & Hf & _ & _ & Hm).
  rewrite Hf, (Hm Py.HTTPError eq_refl). reflexivity.
Defined.

(** C5 as worded fails when the peer cannot be reached: the invocation ends
    in the connection error without a session close and without a write of
    the state file. *)
Lemma state_not_written_when_offline :
  fst (Glpi.invoke (Spec.event "host1" "svcA" "CRITICAL") Spec.offline
         Glpi.Absent)
  = Py.Raise Py.ConnectionError
  /\ Glpi.calls
       (snd (Glpi.invoke (Spec.event "host1" "svcA" "CRITICAL") Spec.offline
               Glpi.Absent))
     = [Glpi.GET_initSession]
  /\ Glpi.state_file
       (snd (Glpi.invoke (Spec.event "host1" "svcA" "CRITICAL") Spec.offline
               Glpi.Absent))
     = Glpi.Absent
  /\ ~ (exists data,
          In (Glpi.write_STATE_FILE data)
            (Glpi.calls
               (snd (Glpi.invoke (Spec.event "host1" "svcA" "CRITICAL")
                       Spec.offline Glpi.Absent)))).
Proof.
  repeat split; try reflexivity.
  intros [data [H|[]]]. discriminate H.
Qed.

(** The peer is offline, or drops the session close after creating ticket
    7: either way the state file stays as it was. *)
Lemma no_state_write_when_session_fails_run :
  Glpi.state_file
    (snd (Glpi.invoke (Spec.event "host1" "svcA" "CRITICAL") Spec.offline
            (Glpi.Stored {[ "host2_svcB" := 3 ]})))
  = Glpi.Stored {[ "host2_svcB" := 3 ]}
  /\ Glpi.state_file
       (snd (Glpi.invoke (Spec.event "host1" "svcA" "CRITICAL")
               (Spec.dropping_close 7) (Glpi.Stored {[ "host2_svcB" := 3 ]})))
     = Glpi.Stored {[ "host2_svcB" := 3 ]}.
Proof.
  destruct (no_state_write_when_session_fails
              (Spec.event "host1" "svcA" "CRITICAL") Spec.offline
              (Glpi.Stored {[ "host2_svcB" := 3 ]}) {[ "host2_svcB" := 3 ]}
              eq_refl) as [H1 _].
  destruct (no_state_write_when_session_fails
              (Spec.event "host1" "svcA" "CRITICAL") (Spec.dropping_close 7)
              (Glpi.Stored {[ "host2_svcB" := 3 ]}) {[ "host2_svcB" := 3 ]}
              eq_refl) as [_ H2].
  split.
  - apply (H1 Py.ConnectionError eq_refl).
  - apply (H2 "s3ss10n" Py.ConnectionError eq_refl eq_refl).
Defined.

(** ** Fingerprints *)

(** C9.  Neither fingerprint is injective, hash collisions apart: the
    fields are joined with a bare underscore, so host ["a_b"] with service
    ["c"] and host ["a"] with service ["b_c"] give the same key, the same
    MD5 fingerprint in the chat notifier and the same [host_service]
    fingerprint in the ticketing notifier, whatever the state.  The two
    distinct events then share one dedup identity (the second is suppressed
    60 seconds after the first was recorded) and one ticket entry (the
    second creates no ticket while the first one's is open). *)
Theorem fingerprints_shared_across_underscore :
  (forall state : string,
      Py.NOTIFY_HOSTNAME (Spec.event "a_b" "c" state)
      <> Py.NOTIFY_HOSTNAME (Spec.event "a" "b_c" state)
      /\ Py.NOTIFY_SERVICEDESC (Spec.event "a_b" "c" state)
         <> Py.NOTIFY_SERVICEDESC (Spec.event "a" "b_c" state)
      /\ Discord.fingerprint_key (Spec.event "a_b" "c" state)
         = Discord.fingerprint_key (Spec.event "a" "b_c" state)
      /\ Discord.get_alert_fingerprint (Spec.event "a_b" "c" state)
         = Discord.get_alert_fingerprint (Spec.event "a" "b_c" state)
      /\ Glpi.fingerprint_of (Spec.event "a_b" "c" state)
         = Glpi.fingerprint_of (Spec.event "a" "b_c" state))
  /\ (Discord.state_file
        (snd (Discord.main Decimal.fromtimestamp_float Decimal.repr_timestamp
                (Spec.event "a_b" "c" "CRITICAL")
                (Spec.first_world 1700000000000000)))
      = Discord.Content Spec.single_log
      /\ Discord.main Decimal.fromtimestamp_float Decimal.repr_timestamp
           (Spec.event "a" "b_c" "CRITICAL")
           (Spec.dedup_world 1700000060000000 Spec.single_log)
         = (Py.Raise (Py.SystemExit 0),
            Spec.dedup_world 1700000060000000 Spec.single_log))
  /\ (Glpi.state_file
        (snd (Glpi.invoke (Spec.event "a_b" "c" "CRITICAL") (Spec.helpful 7)
                Glpi.Absent))
      = Glpi.Stored {[ "a_b_c" := 7 ]}
      /\ List.filter Spec.is_ticket_call
           (Glpi.calls
              (snd (Glpi.invoke (Spec.event "a" "b_c" "CRITICAL")
                      (Spec.helpful 8) (Glpi.Stored {[ "a_b_c" := 7 ]}))))
         = []
      /\ Glpi.state_file
           (snd (Glpi.invoke (Spec.event "a" "b_c" "CRITICAL")
                   (Spec.helpful 8) (Glpi.Stored {[ "a_b_c" := 7 ]})))
         = Glpi.Stored {[ "a_b_c" := 7 ]}).
Proof.
  split; [|split].
  - intros state.
    split; [discriminate|]. split; [discriminate|].
    split; [reflexivity|].
    split; [|reflexivity].
    unfold Discord.get_alert_fingerprint. f_equal.
  - split; vm_compute; reflexivity.
  - repeat split; vm_compute; reflexivity.
Qed.

(** * Further properties *)

(** ** The format of the dedup log *)
Section LogFormat.
Import Py Format.

Lemma plain_not_bar c : plain c = true -> Ascii.eqb c "|" = false.
Proof.
  unfold plain. intros H. apply Ascii.eqb_neq. intros ->.
  cbn in H. discriminate.
Qed.

Lemma plain_not_space c : plain c = true -> isspace1 c = false.
Proof.
  unfold plain. intros H.
  apply andb_prop in H as [H _]. apply andb_prop in H as [_ H].
  apply negb_true_iff in H. exact H.
Qed.

Lemma plain_not_LF c : plain c = true -> Ascii.eqb c LF = false.
Proof.
  intros H. apply Ascii.eqb_neq. intros ->. cbn in H. discriminate.
Qed.

Lemma plain_not_CR c : plain c = true -> Ascii.eqb c CR = false.
Proof.
  intros H. apply Ascii.eqb_neq. intros ->. cbn in H. discriminate.
Qed.

Lemma plain_ascii c : plain c = true -> (nat_of_ascii c < 128)%nat.
Proof.
  unfold plain. intros H.
  apply andb_prop in H as [H _]. apply andb_prop in H as [H _].
  apply Nat.ltb_lt in H. exact H.
Qed.

Lemma hex_digit_plain c : is_hex_digit c = true -> plain c = true.
Proof.
  unfold is_hex_digit, plain, isspace1.
  set (n := nat_of_ascii c). intros H.
  apply orb_prop in H.
  assert ((48 <= n <= 57)%nat \/ (97 <= n <= 102)%nat) as Hn.
  { destruct H as [H|H]; apply andb_prop in H as [H1 H2];
      apply Nat.leb_le in H1, H2; lia. }
  assert ((n <? 128)%nat = true) as -> by (apply Nat.ltb_lt; lia).
  assert ((n <=? 13)%nat = false) as -> by (apply Nat.leb_gt; lia).
  assert ((n <=? 32)%nat = false) as -> by (apply Nat.leb_gt; lia).
  assert ((n =? 124)%nat = false) as -> by (apply Nat.eqb_neq; lia).
  rewrite !andb_false_r. reflexivity.
Qed.

(** A plain byte starts no white-space character, read from either end. *)
Lemma plain_no_space2 c x :
  plain c = true -> isspace2 c x = false /\ isspace2 x c = false.
Proof.
  intros H. apply plain_ascii in H. unfold isspace2. split.
  - assert ((nat_of_ascii c =? 194)%nat = false) as ->
      by (apply Nat.eqb_neq; lia). reflexivity.
  - assert ((nat_of_ascii c =? 133)%nat = false) as ->
      by (apply Nat.eqb_neq; lia).
    assert ((nat_of_ascii c =? 160)%nat = false) as ->
      by (apply Nat.eqb_neq; lia).
    apply andb_false_r.
Qed.

Lemma plain_no_space3 c x y :
  plain c = true -> isspace3 c x y = false /\ isspace3 y x c = false.
Proof.
  intros H. apply plain_ascii in H. unfold isspace3.
  set (n := nat_of_ascii c) in *. split.
  - assert ((n =? 225)%nat = false) as -> by (apply Nat.eqb_neq; lia).
    assert ((n =? 226)%nat = false) as -> by (apply Nat.eqb_neq; lia).
    assert ((n =? 227)%nat = false) as -> by (apply Nat.eqb_neq; lia).
    reflexivity.
  - assert ((n =? 128)%nat = false) as -> by (apply Nat.eqb_neq; lia).
    assert ((128 <=? n)%nat = false) as -> by (apply Nat.leb_gt; lia).
    assert ((n =? 168)%nat = false) as -> by (apply Nat.eqb_neq; lia).
    assert ((n =? 169)%nat = false) as -> by (apply Nat.eqb_neq; lia).
    assert ((n =? 175)%nat = false) as -> by (apply Nat.eqb_neq; lia).
    assert ((n =? 159)%nat = false) as -> by (apply Nat.eqb_neq; lia).
    rewrite !andb_false_r. reflexivity.
Qed.

(** White space is only dropped in front of a plain byte. *)
Lemma drop_spaces_plain fwd c r :
  plain c = true -> drop_spaces fwd (c :: r) = c :: r.
Proof.
  intros H. cbn [drop_spaces]. rewrite (plain_not_space c H).
  destruct r as [|c2 r2]; [reflexivity|].
  destruct (plain_no_space2 c c2 H) as [-> ->].
  destruct r2 as [|c3 r3]; [destruct fwd; reflexivity|].
  destruct (plain_no_space3 c c2 c3 H) as [-> ->].
  destruct fwd; reflexivity.
Qed.

Lemma chars_app (a b : string) :
  list_ascii_of_string (a +:+ b)
  = list_ascii_of_string a ++ list_ascii_of_string b.
Proof.
  induction a as [|c a IH]; [reflexivity|].
  rewrite append_cons. cbn [list_ascii_of_string app]. rewrite IH.
  reflexivity.
Qed.

Lemma word_chars s :
  word s = true ->
  exists c r, list_ascii_of_string s = c :: r
              /\ plain c = true /\ forallb plain r = true.
Proof.
  destruct s as [|c s]; [discriminate|].
  cbn [word list_ascii_of_string forallb]. intros H.
  apply andb_prop in H as [H1 H2]. eauto.
Qed.

Lemma word_rev_chars s :
  word s = true ->
  exists c r, rev (list_ascii_of_string s) = c :: r /\ plain c = true.
Proof.
  intros H. destruct (word_chars s H) as (c & r & E & Hc & Hr).
  assert (forallb plain (rev (list_ascii_of_string s)) = true) as Hall.
  { rewrite E. apply forallb_forall. intros x Hx. apply in_rev in Hx.
    destruct Hx as [<-|Hx]; [exact Hc|].
    apply (proj1 (forallb_forall plain r) Hr x Hx). }
  destruct (rev (list_ascii_of_string s)) as [|d l] eqn:Er.
  - apply (f_equal (@length ascii)) in Er. rewrite length_rev, E in Er.
    discriminate.
  - cbn [forallb] in Hall. apply andb_prop in Hall as [Hd _]. eauto.
Qed.

(** Stripping a line of two words gives the two words and the bar. *)
Lemma strip_record (a b : string) :
  word a = true -> word b = true ->
  strip (a +:+ "|" +:+ b +:+ String LF "") = a +:+ "|" +:+ b.
Proof.
  intros Ha Hb. unfold strip.
  destruct (word_chars a Ha) as (c & r & Ea & Hc & _).
  assert (list_ascii_of_string (a +:+ "|" +:+ b +:+ String LF "")
          = list_ascii_of_string (a +:+ "|" +:+ b) ++ [LF]) as E.
  { rewrite !chars_app. cbn [list_ascii_of_string].
    rewrite <- !app_assoc. reflexivity. }
  rewrite E.
  assert (exists r', list_ascii_of_string (a +:+ "|" +:+ b) = c :: r')
    as [r' E'] by (rewrite chars_app, Ea; eexists; reflexivity).
  rewrite E'. change ((c :: r') ++ [LF]) with (c :: (r' ++ [LF])).
  rewrite (drop_spaces_plain true c _ Hc).
  change (c :: (r' ++ [LF])) with ((c :: r') ++ [LF]). rewrite <- E'.
  rewrite rev_app_distr. cbn [rev app drop_spaces].
  change (isspace1 LF) with true. cbv iota.
  destruct (word_rev_chars b Hb) as (d & l & Eb & Hd).
  rewrite !chars_app, !rev_app_distr, Eb. cbn [app].
  rewrite (drop_spaces_plain false d _ Hd).
  change (d :: (l ++ rev (list_ascii_of_string "|"))
            ++ rev (list_ascii_of_string a))
    with (((d :: l) ++ rev (list_ascii_of_string "|"))
          ++ rev (list_ascii_of_string a)).
  rewrite <- Eb, <- !rev_app_distr, rev_involutive, <- !chars_app.
  apply string_of_list_ascii_of_string.
Qed.

Lemma split_word s :
  forallb plain (list_ascii_of_string s) = true -> split "|" s = [s].
Proof.
  induction s as [|c s IH]; [reflexivity|].
  cbn [list_ascii_of_string forallb split]. intros H.
  apply andb_prop in H as [Hc Hs].
  rewrite (plain_not_bar c Hc), (IH Hs). reflexivity.
Qed.

Lemma word_all_plain s :
  word s = true -> forallb plain (list_ascii_of_string s) = true.
Proof. destruct s; [discriminate|]. intros H. exact H. Qed.

(** Splitting two words at the bar gives the two words back. *)
Lemma split_record (a b : string) :
  word a = true -> word b = true ->
  split "|" (a +:+ "|" +:+ b) = [a; b].
Proof.
  intros Ha Hb. apply word_all_plain in Ha, Hb.
  induction a as [|c a IH].
  - change ("" +:+ "|" +:+ b) with (String "|" b). cbn [split].
    change (Ascii.eqb "|" "|") with true. cbv iota.
    rewrite (split_word b Hb). reflexivity.
  - cbn [list_ascii_of_string forallb] in Ha.
    apply andb_prop in Ha as [Hc Ha].
    rewrite append_cons. cbn [split].
    rewrite (plain_not_bar c Hc), (IH Ha). reflexivity.
Qed.

Lemma string_pairs (P : string -> Prop) :
  P "" ->
  (forall c, P (String c "")) ->
  (forall c1 c2 r, P r -> P (String c2 r) -> P (String c1 (String c2 r))) ->
  forall s, P s.
Proof.
  intros H0 H1 H2 s.
  assert (P s /\ forall c, P (String c s)) as [H _]; [|exact H].
  induction s as [|c s [IH1 IH2]].
  - split; [exact H0|exact H1].
  - split; [apply IH2|]. intros c1. apply H2; [exact IH1|apply IH2].
Qed.

Lemma universal_newlines_two c1 c2 r :
  universal_newlines (String c1 (String c2 r))
  = if Ascii.eqb c1 CR then
      if Ascii.eqb c2 LF then String LF (universal_newlines r)
      else String LF (universal_newlines (String c2 r))
    else String c1 (universal_newlines (String c2 r)).
Proof. reflexivity. Qed.

Lemma universal_newlines_app a c0 r0 :
  Ascii.eqb c0 LF = false ->
  universal_newlines (a +:+ String c0 r0)
  = universal_newlines a +:+ universal_newlines (String c0 r0).
Proof.
  intros Hc. induction a as [|c|c1 c2 r IH1 IH2] using string_pairs.
  - reflexivity.
  - change (String c "" +:+ String c0 r0) with (String c (String c0 r0)).
    rewrite universal_newlines_two, Hc.
    destruct (Ascii.eqb c CR) eqn:E; cbn [universal_newlines]; rewrite E;
      reflexivity.
  - rewrite !append_cons, !universal_newlines_two.
    rewrite !append_cons in IH2.
    destruct (Ascii.eqb c1 CR).
    + destruct (Ascii.eqb c2 LF).
      * rewrite IH1. reflexivity.
      * rewrite IH2. reflexivity.
    + rewrite IH2. reflexivity.
Qed.

Lemma universal_newlines_cons c r :
  exists c' r', universal_newlines (String c r) = String c' r'.
Proof.
  cbn [universal_newlines]. destruct (Ascii.eqb c CR); [|eauto].
  destruct r as [|c2 r2]; [eauto|]. destruct (Ascii.eqb c2 LF); eauto.
Qed.

Lemma complete_cons c c' r :
  complete (String c (String c' r)) = complete (String c' r).
Proof. reflexivity. Qed.

Lemma complete_universal_newlines a :
  complete a = true -> complete (universal_newlines a) = true.
Proof.
  induction a as [|c|c1 c2 r IH1 IH2] using string_pairs.
  - reflexivity.
  - intros H. cbn [complete] in H. apply Ascii.eqb_eq in H. subst c.
    reflexivity.
  - rewrite complete_cons, universal_newlines_two. intros H.
    destruct (Ascii.eqb c1 CR).
    + destruct (Ascii.eqb c2 LF) eqn:E2.
      * destruct r as [|c3 r3]; [reflexivity|].
        destruct (universal_newlines_cons c3 r3) as (x & y & E).
        specialize (IH1 H). rewrite E in *. exact IH1.
      * destruct (universal_newlines_cons c2 r) as (x & y & E).
        specialize (IH2 H). rewrite E in *. exact IH2.
    + destruct (universal_newlines_cons c2 r) as (x & y & E).
      specialize (IH2 H). rewrite E in *. exact IH2.
Qed.

Lemma cut_lines_cons c r : exists l ls, cut_lines (String c r) = l :: ls.
Proof.
  cbn [cut_lines]. destruct (Ascii.eqb c LF); [eauto|].
  destruct (cut_lines r); eauto.
Qed.

Lemma cut_lines_app a b :
  complete a = true -> cut_lines (a +:+ b) = cut_lines a ++ cut_lines b.
Proof.
  induction a as [|c a IH]; [reflexivity|].
  intros H. rewrite append_cons. cbn [cut_lines].
  destruct a as [|c' a'].
  - cbn in H. rewrite H. reflexivity.
  - rewrite complete_cons in H. rewrite (IH H).
    destruct (Ascii.eqb c LF); [reflexivity|].
    destruct (cut_lines_cons c' a') as (l & ls & E). rewrite E.
    reflexivity.
Qed.

Lemma inline_line body :
  forallb inline (list_ascii_of_string body) = true ->
  universal_newlines (body +:+ String LF "") = body +:+ String LF ""
  /\ cut_lines (body +:+ String LF "") = [body +:+ String LF ""].
Proof.
  induction body as [|c body IH]; [split; reflexivity|].
  cbn [list_ascii_of_string forallb]. intros H.
  apply andb_prop in H as [Hc Hb]. destruct (IH Hb) as [IH1 IH2].
  unfold inline in Hc. apply andb_prop in Hc as [H1 H2].
  apply negb_true_iff in H1, H2.
  rewrite append_cons. cbn [universal_newlines cut_lines].
  rewrite H1, H2, IH1, IH2. split; reflexivity.
Qed.

Lemma plain_inline c : plain c = true -> inline c = true.
Proof.
  intros H. unfold inline.
  rewrite (plain_not_LF c H), (plain_not_CR c H). reflexivity.
Qed.

(** Appending a record line to a complete log appends one line to what
    [readlines] gives. *)
Lemma readlines_record text (a b : string) :
  complete text = true -> word a = true -> word b = true ->
  readlines (text +:+ a +:+ "|" +:+ b +:+ String LF "")
  = readlines text ++ [a +:+ "|" +:+ b +:+ String LF ""].
Proof.
  intros Ht Ha Hb. unfold readlines.
  destruct (word_chars a Ha) as (c & r & Ea & Hc & _).
  assert (forallb inline (list_ascii_of_string (a +:+ "|" +:+ b)) = true)
    as Hin.
  { rewrite !chars_app, !forallb_app. cbn [list_ascii_of_string forallb].
    apply word_all_plain in Ha, Hb.
    assert (forall l, forallb plain l = true -> forallb inline l = true)
      as Hall.
    { intros l Hl. apply forallb_forall. intros x Hx.
      apply plain_inline. apply (proj1 (forallb_forall plain l) Hl x Hx). }
    rewrite (Hall _ Ha), (Hall _ Hb). reflexivity. }
  destruct (inline_line _ Hin) as [E1 E2].
  rewrite !append_assoc in E1, E2.
  set (line := a +:+ "|" +:+ b +:+ String LF "") in *.
  assert (exists r0, line = String c r0) as [r0 El].
  { subst line. destruct a as [|c' a']; [discriminate|].
    injection Ea as -> _. rewrite append_cons. eauto. }
  rewrite El, (universal_newlines_app text c r0 (plain_not_LF c Hc)), <- El.
  rewrite cut_lines_app by (apply complete_universal_newlines, Ht).
  rewrite E1, E2. reflexivity.
Qed.

Lemma complete_snoc s : complete (s +:+ String LF "") = true.
Proof.
  induction s as [|c s IH]; [reflexivity|].
  rewrite append_cons.
  destruct (s +:+ String LF "") as [|c' r] eqn:E.
  - destruct s; discriminate E.
  - rewrite complete_cons. exact IH.
Qed.

Lemma complete_record_line repr_timestamp text fp t :
  complete (text +:+ record_line repr_timestamp fp t) = true.
Proof.
  unfold record_line. rewrite <- !append_assoc. apply complete_snoc.
Qed.

(** The decoding check on samples: accented and three-byte characters
    pass; a byte 255, a lone continuation byte, an overlong slash, a
    surrogate and a cut sequence do not. *)
Lemma is_utf8_samples :
  is_utf8 "dépôt → ok" = true
  /\ is_utf8 (String (ascii_of_nat 255) "") = false
  /\ is_utf8 (String (ascii_of_nat 128) "") = false
  /\ is_utf8 (String (ascii_of_nat 192) (String (ascii_of_nat 175) ""))
     = false
  /\ is_utf8 (String (ascii_of_nat 237)
                (String (ascii_of_nat 160) (String (ascii_of_nat 128) "")))
     = false
  /\ is_utf8 (String (ascii_of_nat 226) (String (ascii_of_nat 130) ""))
     = false.
Proof. repeat split; reflexivity. Qed.

(** Text appended to text is text. *)
Lemma is_utf8_app_bounded (n : nat) : forall a b : string,
  (String.length a <= n)%nat ->
  is_utf8 a = true -> is_utf8 b = true -> is_utf8 (a +:+ b) = true.
Proof.
  induction n as [|n IH]; intros a b Hn Ha Hb.
  - destruct a; [exact Hb|cbn in Hn; lia].
  - destruct a as [|c1 r1]; [exact Hb|].
    rewrite append_cons. cbn [is_utf8] in *. cbn [String.length] in Hn.
    destruct (between 0 127 c1); [apply IH; [lia|assumption..]|].
    destruct r1 as [|c2 r2]; [discriminate|].
    rewrite append_cons. cbn [String.length] in Hn.
    destruct (between 194 223 c1).
    { apply andb_prop in Ha as [H2 Ha]. rewrite H2.
      apply IH; [lia|assumption..]. }
    destruct r2 as [|c3 r3]; [discriminate|].
    rewrite append_cons. cbn [String.length] in Hn.
    destruct (_ || _).
    { apply andb_prop in Ha as [H3 Ha]. rewrite H3.
      apply IH; [lia|assumption..]. }
    destruct r3 as [|c4 r4]; [discriminate|].
    rewrite append_cons. cbn [String.length] in Hn.
    apply andb_prop in Ha as [H4 Ha]. rewrite H4.
    apply IH; [lia|assumption..].
Qed.

Lemma is_utf8_app (a b : string) :
  is_utf8 a = true -> is_utf8 b = true -> is_utf8 (a +:+ b) = true.
Proof. apply (is_utf8_app_bounded (String.length a)). lia. Qed.

Lemma plain_one_byte c : plain c = true -> between 0 127 c = true.
Proof.
  unfold plain, between. cbv zeta. intros H.
  apply andb_prop in H as [H _]. apply andb_prop in H as [H _].
  apply Nat.ltb_lt in H. apply andb_true_intro. split.
  - apply Nat.leb_le. lia.
  - apply Nat.leb_le. lia.
Qed.

Lemma is_utf8_plain s :
  forallb plain (list_ascii_of_string s) = true -> is_utf8 s = true.
Proof.
  induction s as [|c s IH]; [reflexivity|].
  cbn [list_ascii_of_string forallb is_utf8]. intros H.
  apply andb_prop in H as [Hc Hs].
  rewrite (plain_one_byte c Hc). apply IH, Hs.
Qed.

(** The line the script writes is text. *)
Lemma is_utf8_record (a b : string) :
  word a = true -> word b = true ->
  is_utf8 (a +:+ "|" +:+ b +:+ String LF "") = true.
Proof.
  intros Ha Hb. apply word_all_plain in Ha, Hb.
  apply is_utf8_app; [apply is_utf8_plain, Ha|].
  change ("|" +:+ b +:+ String LF "") with (String "|" (b +:+ String LF "")).
  cbn [is_utf8]. change (between 0 127 "|") with true. cbv iota.
  apply is_utf8_app; [apply is_utf8_plain, Hb|reflexivity].
Qed.

End LogFormat.


(** ** The shape of the fingerprint (discord.py) *)
Section FingerprintShape.
Import Py Format.

Lemma le_bytes_range k n :
  Forall (fun b => 0 <= b < 256) (MD5.le_bytes k n).
Proof.
  revert n. induction k as [|k IH]; intros n; cbn [MD5.le_bytes].
  - constructor.
  - constructor; [apply Z.mod_pos_bound; lia|apply IH].
Qed.

Lemma le_bytes_length k n : length (MD5.le_bytes k n) = k.
Proof.
  revert n. induction k as [|k IH]; intros n; cbn [MD5.le_bytes length].
  - reflexivity.
  - rewrite IH. reflexivity.
Qed.

Lemma hex_digit_is_hex n :
  0 <= n < 16 -> is_hex_digit (MD5.hex_digit n) = true.
Proof.
  intros H. rewrite <- (Z2Nat.id n) by lia.
  assert (Z.to_nat n < 16)%nat as Hk by lia.
  revert Hk. generalize (Z.to_nat n) as k. intros k Hk.
  do 16 (destruct k as [|k]; [reflexivity|]). lia.
Qed.

Lemma hex_shape bs :
  Forall (fun b => 0 <= b < 256) bs ->
  String.length (MD5.hex bs) = (2 * length bs)%nat
  /\ forallb is_hex_digit (list_ascii_of_string (MD5.hex bs)) = true.
Proof.
  induction 1 as [|b bs Hb _ [IH1 IH2]]; [split; reflexivity|].
  cbn [MD5.hex String.length list_ascii_of_string forallb length].
  rewrite IH1, IH2.
  rewrite (hex_digit_is_hex (b / 16)), (hex_digit_is_hex (b mod 16)).
  - split; [lia|reflexivity].
  - apply Z.mod_pos_bound. lia.
  - split; [apply Z.div_pos; lia|apply Z.div_lt_upper_bound; lia].
Qed.

Lemma digest_shape msg :
  Forall (fun b => 0 <= b < 256) (MD5.digest msg)
  /\ length (MD5.digest msg) = 16%nat.
Proof.
  unfold MD5.digest. cbv zeta. split.
  - repeat (apply Forall_app; split); apply le_bytes_range.
  - rewrite !length_app, !le_bytes_length. reflexivity.
Qed.

Lemma hexdigest_shape s :
  String.length (MD5.hexdigest s) = 32%nat
  /\ forallb is_hex_digit (list_ascii_of_string (MD5.hexdigest s)) = true
  /\ word (MD5.hexdigest s) = true.
Proof.
  unfold MD5.hexdigest.
  destruct (digest_shape (MD5.bytes_of s)) as [Hr Hl].
  destruct (hex_shape _ Hr) as [H1 H2]. rewrite Hl in H1.
  split; [exact H1|]. split; [exact H2|].
  unfold word.
  destruct (MD5.hex _) as [|c r] eqn:E; [discriminate H1|].
  apply forallb_forall. intros x Hx. apply hex_digit_plain.
  apply (proj1 (forallb_forall _ _) H2 x Hx).
Qed.

(** The fingerprint of every event is 32 lowercase hexadecimal digits: it
    holds no bar, no white space and no line end, so it fits the first
    field of a log line. *)
Theorem fingerprint_is_32_hex_digits (env : environ) :
  String.length (Discord.get_alert_fingerprint env) = 32%nat
  /\ forallb is_hex_digit
       (list_ascii_of_string (Discord.get_alert_fingerprint env)) = true
  /\ word (Discord.get_alert_fingerprint env) = true.
Proof. apply hexdigest_shape. Qed.

End FingerprintShape.

(** ** Runs of the chat notifier *)
Section ChatRuns.
Import Py Discord Spec More Format.

Variable fromtimestamp_float : string -> outcome Z.
Variable repr_timestamp : Z -> string.

Local Abbreviation main := (Discord.main fromtimestamp_float repr_timestamp).
Local Abbreviation passes := (More.passes fromtimestamp_float).
Local Abbreviation script_log :=
  (More.script_log fromtimestamp_float repr_timestamp).

(** One run of the script, path by path *)
Lemma main_paths env w :
  main env w
  = let fp := get_alert_fingerprint env in
    let w1 := with_posted (posted w ++ [post_of env]) w in
    let failed e :=
      (Raise e,
       if is_Exception e
       then with_errors_log (errors_log w ++ [(now w, e)]) w1
       else w1) in
    if passes fp w then
      match delivered w (post_of env) with
      | Raise e => failed e
      | Return _ =>
          match state_file w with
          | Unreadable e => failed e
          | f =>
              (Return tt,
               with_state_file
                 (Content (log_text f +:+ fp +:+ "|"
                           +:+ repr_timestamp (now w) +:+ String LF ""))
                 w1)
          end
      end
    else (Raise (SystemExit 0), w).
Proof.
  cbv zeta. unfold More.passes.
  unfold Discord.main, Discord.main_body, try_except, bind.
  rewrite is_duplicate_notification_eq.
  destruct (fst (is_duplicate_try fromtimestamp_float
                   (get_alert_fingerprint env) w)) as [[|]|e0];
    cbn [negb]; try reflexivity.
  - change (send _ w) with (send (post_of env) w).
    unfold send, delivered, record_notification, log_error, raise.
    destruct (webhook w (post_of env)) as [res|e].
    + destruct (raise_for_status res) as [[]|e].
      * cbn [with_posted state_file now]. destruct (state_file w) as [|e|text];
          try reflexivity.
        destruct (is_Exception e); reflexivity.
      * destruct (is_Exception e); reflexivity.
    + destruct (is_Exception e); reflexivity.
  - change (send _ w) with (send (post_of env) w).
    unfold send, delivered, record_notification, log_error, raise.
    destruct (webhook w (post_of env)) as [res|e].
    + destruct (raise_for_status res) as [[]|e].
      * cbn [with_posted state_file now]. destruct (state_file w) as [|e|text];
          try reflexivity.
        destruct (is_Exception e); reflexivity.
      * destruct (is_Exception e); reflexivity.
    + destruct (is_Exception e); reflexivity.
Qed.

(** The error log gains an entry only for the exception the run ends in:
    after a run the log is as it was, or one entry longer, the entry being
    the time of the run with the [Exception] that comes out; it is as it
    was when the run returns, exits as a duplicate or is interrupted. *)
Theorem error_log_entry_only_for_the_exception env w :
  (errors_log (snd (main env w)) = errors_log w
   \/ exists e, is_Exception e = true
                /\ fst (main env w) = Raise e
                /\ errors_log (snd (main env w))
                   = errors_log w ++ [(now w, e)])
  /\ (forall a, fst (main env w) = Return a ->
      errors_log (snd (main env w)) = errors_log w)
  /\ (forall e, fst (main env w) = Raise e -> is_Exception e = false ->
      errors_log (snd (main env w)) = errors_log w).
Proof.
  rewrite main_paths. cbv zeta.
  destruct (passes _ w).
  - destruct (delivered w (post_of env)) as [[]|e].
    + destruct (state_file w) as [|e|text]; cbn [fst snd].
      * split; [left; reflexivity|].
        split; [intros ? _|intros ? _ _]; reflexivity.
      * destruct (is_Exception e) eqn:He; cbn [fst snd].
        -- split; [right; exists e; split; [exact He|split; reflexivity]|].
           split; [discriminate|]. intros e' [= <-] He'. congruence.
        -- split; [left; reflexivity|].
           split; [intros ? _|intros ? _ _]; reflexivity.
      * split; [left; reflexivity|].
        split; [intros ? _|intros ? _ _]; reflexivity.
    + destruct (is_Exception e) eqn:He; cbn [fst snd].
      * split; [right; exists e; split; [exact He|split; reflexivity]|].
        split; [discriminate|]. intros e' [= <-] He'. congruence.
      * split; [left; reflexivity|].
        split; [intros ? _|intros ? _ _]; reflexivity.
  - cbn [fst snd]. split; [left; reflexivity|].
    split; [intros ? _|intros ? _ _]; reflexivity.
Qed.

Lemma main_posted env w :
  posted (snd (main env w))
  = posted w
    ++ (if passes (get_alert_fingerprint env) w then [post_of env] else []).
Proof.
  rewrite main_paths. cbv zeta.
  destruct (passes _ w); [|cbn; rewrite app_nil_r; reflexivity].
  destruct (delivered w (post_of env)) as [[]|e].
  - destruct (state_file w) as [|e|text]; cbn; try reflexivity.
    destruct (is_Exception e); reflexivity.
  - cbn. destruct (is_Exception e); reflexivity.
Qed.

(** A run posts at most once: the payload built from the environment when
    the check lets the event through, nothing otherwise; the payload does
    not depend on the log or the clock. *)
Theorem at_most_one_post env w :
  posted (snd (main env w))
  = posted w
    ++ (if passes (get_alert_fingerprint env) w then [post_of env] else []).
Proof. apply main_posted. Qed.

(** A post that fails (the request raises, or the answer has status 400 to
    599) is not recorded: the run ends in that exception, the dedup log is
    as before, and any later check answers as if the run had not been. *)
Theorem failed_post_is_not_recorded env w e :
  passes (get_alert_fingerprint env) w = true ->
  delivered w (post_of env) = Raise e ->
  fst (main env w) = Raise e
  /\ state_file (snd (main env w)) = state_file w
  /\ forall fp now',
       passes fp (at_time now' (snd (main env w)))
       = passes fp (at_time now' w).
Proof.
  intros Hp Hd. rewrite main_paths. cbv zeta. rewrite Hp, Hd.
  destruct (is_Exception e); repeat split; reflexivity.
Qed.

(** A post that succeeds is recorded: the run returns, the dedup log gains
    the one line [fingerprint|time] at its end and nothing else, and the
    error log is as before. *)
Theorem successful_post_is_recorded env w :
  passes (get_alert_fingerprint env) w = true ->
  delivered w (post_of env) = Return tt ->
  appended (state_file w) = Return tt ->
  fst (main env w) = Return tt
  /\ state_file (snd (main env w))
     = Content (log_text (state_file w)
                +:+ record_line repr_timestamp (get_alert_fingerprint env)
                      (now w))
  /\ errors_log (snd (main env w)) = errors_log w.
Proof.
  intros Hp Hd Ha. rewrite main_paths. cbv zeta. rewrite Hp, Hd.
  destruct (state_file w) as [|e|text]; [|discriminate Ha|];
    repeat split; reflexivity.
Qed.

(** The [seconds] field of a difference does not change when the clock
    moves by whole days. *)
Lemma seconds_period now t k :
  seconds (datetime_sub (now + k * 86400000000) t)
  = seconds (datetime_sub now t).
Proof.
  unfold datetime_sub. cbn [seconds].
  replace (now + k * 86400000000 - t) with (now - t + k * 86400000000)
    by lia.
  rewrite Z.mod_add by lia. reflexivity.
Qed.

Lemma scan_period now fp k lines :
  scan fromtimestamp_float (now + k * 86400000000) fp lines
  = scan fromtimestamp_float now fp lines.
Proof.
  induction lines as [|line lines IH]; [reflexivity|].
  cbn [scan]. rewrite IH.
  destruct (split "|" (strip line)) as [|a [|b [|c l]]]; try reflexivity.
  destruct (String.eqb a fp); [|reflexivity].
  destruct (fromtimestamp_float b) as [t|e]; [|reflexivity].
  rewrite seconds_period. reflexivity.
Qed.

(** The duplicate check has a period of one day: it answers at any whole
    number of days before or after [now] what it answers at [now], so an
    entry suppresses its event for 300 seconds of every day. *)
Theorem duplicate_check_repeats_daily fp w (k : Z) :
  fst (is_duplicate_notification fromtimestamp_float fp
         (at_time (now w + k * 86400000000) w))
  = fst (is_duplicate_notification fromtimestamp_float fp w).
Proof.
  rewrite !is_duplicate_notification_eq. cbn [fst].
  unfold is_duplicate_try. cbn [fst at_time state_file now].
  destruct (state_file w); try reflexivity.
  rewrite scan_period. reflexivity.
Qed.

(** An event posted and recorded when the local clock reads [now w] and
    met again when it reads [now2], less than a day further, over a
    complete log that decodes as text and whose older lines neither stop
    nor satisfy the scan: the log still decodes, and the second run is
    suppressed exactly when the two readings are less than 300 seconds
    apart, and posts again otherwise. *)
Theorem repeated_event_suppressed_within_window env w now2 :
  word (repr_timestamp (now w)) = true ->
  fromtimestamp_float (repr_timestamp (now w)) = Return (now w) ->
  appended (state_file w) = Return tt ->
  complete (log_text (state_file w)) = true ->
  is_utf8 (log_text (state_file w)) = true ->
  scan fromtimestamp_float now2 (get_alert_fingerprint env)
    (readlines (log_text (state_file w))) = Return false ->
  passes (get_alert_fingerprint env) w = true ->
  delivered w (post_of env) = Return tt ->
  0 <= now2 - now w < 1000000 * 86400 ->
  passes (get_alert_fingerprint env) (at_time now2 (snd (main env w)))
  = negb (now2 - now w <? 1000000 * 300)
  /\ (now2 - now w < 1000000 * 300 ->
      main env (at_time now2 (snd (main env w)))
      = (Raise (SystemExit 0), at_time now2 (snd (main env w))))
  /\ (1000000 * 300 <= now2 - now w ->
      posted (snd (main env (at_time now2 (snd (main env w)))))
      = posted w ++ [post_of env; post_of env])
  /\ is_utf8 (log_text (state_file (snd (main env w)))) = true.
Proof.
  intros Hw Hr Ha Hc Hu Hs Hp Hd Hday.
  set (fp := get_alert_fingerprint env) in *.
  assert (word fp = true) as Hfp by apply hexdigest_shape.
  assert (state_file (snd (main env w))
          = Content (log_text (state_file w)
                     +:+ fp +:+ "|" +:+ repr_timestamp (now w)
                     +:+ String LF "")
          /\ posted (snd (main env w)) = posted w ++ [post_of env])
    as [Hfile Hposted].
  { rewrite main_paths. cbv zeta. fold fp. rewrite Hp, Hd.
    destruct (state_file w) as [|e|text]; [|discriminate Ha|];
      split; reflexivity. }
  assert (passes fp (at_time now2 (snd (main env w)))
          = negb (now2 - now w <? 1000000 * 300)) as Hpass.
  { unfold More.passes, is_duplicate_try.
    cbn [fst at_time state_file now]. rewrite Hfile.
    rewrite (readlines_record _ fp _ Hc Hfp Hw).
    rewrite scan_app, Hs. cbn [scan].
    rewrite (strip_record fp _ Hfp Hw), (split_record fp _ Hfp Hw).
    rewrite String.eqb_refl, Hr.
    rewrite (seconds_within_a_day now2 (now w) Hday).
    destruct (now2 - now w <? 1000000 * 300); reflexivity. }
  split; [exact Hpass|]. split; [|split].
  - intros Hlt. rewrite main_paths. cbv zeta. fold fp. rewrite Hpass.
    apply Z.ltb_lt in Hlt. rewrite Hlt. reflexivity.
  - intros Hge. apply Z.ltb_ge in Hge. rewrite Hge in Hpass.
    cbn [negb] in Hpass. rewrite main_posted. fold fp. rewrite Hpass.
    cbn [at_time posted]. rewrite Hposted, <- app_assoc. reflexivity.
  - rewrite Hfile. cbn [log_text].
    apply is_utf8_app; [exact Hu|]. apply is_utf8_record; assumption.
Qed.

(** A run returns normally exactly when the check lets the event through,
    the post is delivered and the record is appended; in every other case
    it ends in an exception or in the exit of a duplicate. *)
Theorem run_returns_iff_posted_and_recorded env w :
  fst (main env w) = Return tt
  <-> passes (get_alert_fingerprint env) w = true
      /\ delivered w (post_of env) = Return tt
      /\ appended (state_file w) = Return tt.
Proof.
  rewrite main_paths. cbv zeta.
  destruct (passes _ w).
  - destruct (delivered w (post_of env)) as [[]|e].
    + destruct (state_file w) as [|e|text]; cbn [fst appended];
        split; try (intros H; repeat split; reflexivity);
        try discriminate; intros (_ & _ & H); discriminate H.
    + cbn [fst]. split; [discriminate|]. intros (_ & H & _). discriminate H.
  - cbn [fst]. split; [discriminate|]. intros (H & _). discriminate H.
Qed.

Lemma main_state_file env w :
  state_file (snd (main env w)) = state_file w
  \/ (appended (state_file w) = Return tt
      /\ state_file (snd (main env w))
         = Content (log_text (state_file w)
                    +:+ record_line repr_timestamp
                          (get_alert_fingerprint env) (now w))).
Proof.
  rewrite main_paths. cbv zeta.
  destruct (passes _ w); [|left; reflexivity].
  destruct (delivered w (post_of env)) as [[]|e].
  - destruct (state_file w) as [|e|text] eqn:Ef.
    + right. split; reflexivity.
    + left. destruct (is_Exception e); cbn; rewrite Ef; reflexivity.
    + right. split; reflexivity.
  - left. destruct (is_Exception e); reflexivity.
Qed.

(** The dedup log only grows: a run leaves the file as it found it or with
    one record line added at the end, never shorter and never removed; and
    a log that ends with a line feed (or is empty) still does afterwards. *)
Theorem dedup_log_only_grows env w :
  (state_file (snd (main env w)) = state_file w
   \/ state_file (snd (main env w))
      = Content (log_text (state_file w)
                 +:+ record_line repr_timestamp (get_alert_fingerprint env)
                       (now w)))
  /\ (complete (log_text (state_file w)) = true ->
      complete (log_text (state_file (snd (main env w)))) = true).
Proof.
  destruct (main_state_file env w) as [E|[_ E]]; rewrite E.
  - split; [left; reflexivity|]. intros H. exact H.
  - split; [right; reflexivity|]. intros _. cbn [log_text].
    apply complete_record_line.
Qed.

(** A log that only the script wrote is still one after every run whose
    time has a text that is a word and reads back as a time. *)
Theorem script_log_is_kept env w t' :
  script_log (log_text (state_file w)) ->
  word (repr_timestamp (now w)) = true ->
  fromtimestamp_float (repr_timestamp (now w)) = Return t' ->
  script_log (log_text (state_file (snd (main env w)))).
Proof.
  intros Hlog Hw Hr.
  destruct (main_state_file env w) as [E|[_ E]]; rewrite E; [exact Hlog|].
  cbn [log_text]. apply (script_log_record _ _ _ _ _ t'); assumption.
Qed.

Lemma scan_well_formed now fp lines :
  forallb (well_formed fromtimestamp_float fp) lines = true ->
  exists b, scan fromtimestamp_float now fp lines = Return b.
Proof.
  induction lines as [|line lines IH]; [eexists; reflexivity|].
  cbn [forallb scan]. unfold well_formed at 1. intros H.
  apply andb_prop in H as [H1 H2].
  destruct (split "|" (strip line)) as [|a [|b [|c l]]];
    try discriminate H1.
  destruct (String.eqb a fp); [|apply IH, H2].
  destruct (fromtimestamp_float b) as [t|e]; [|discriminate H1].
  destruct (seconds (datetime_sub now t) <? DEDUP_WINDOW);
    [eexists; reflexivity|apply IH, H2].
Qed.

(** On a log that only the script wrote the check never fails open: the
    text ends with a line feed, every line is a well-formed record for
    every fingerprint, and the scan returns without raising at any time. *)
Theorem script_log_scans_without_raising text :
  script_log text ->
  complete text = true
  /\ forall fp,
       forallb (well_formed fromtimestamp_float fp) (readlines text) = true
       /\ forall now,
            exists b,
              scan fromtimestamp_float now fp (readlines text) = Return b.
Proof.
  intros Hlog.
  assert (complete text = true
          /\ forall fp,
               forallb (well_formed fromtimestamp_float fp) (readlines text)
               = true) as [Hc Hwf].
  { induction Hlog as [|text env t t' _ [IHc IHw] Hw Hr].
    - split; [reflexivity|]. intros fp. reflexivity.
    - split; [apply complete_record_line|]. intros fp.
      assert (word (get_alert_fingerprint env) = true) as Hfp
        by apply hexdigest_shape.
      unfold record_line.
      rewrite (readlines_record text _ _ IHc Hfp Hw), forallb_app, IHw.
      cbn [forallb]. unfold well_formed.
      rewrite (strip_record _ _ Hfp Hw), (split_record _ _ Hfp Hw), Hr.
      destruct (String.eqb _ fp); reflexivity. }
  split; [exact Hc|]. intros fp. split; [apply Hwf|].
  intros now. apply scan_well_formed, Hwf.
Qed.

End ChatRuns.

(** ** Runs of the ticketing notifier *)
Section TicketRuns.
Import Py Glpi Spec More.

Lemma invoke_unloadable env srv f e :
  loaded f = Raise e -> invoke env srv f = (Raise e, boot srv f).
Proof.
  intros Hl. unfold invoke. rewrite main_unfold. unfold bind at 1.
  rewrite read_state_eq. change (state_file (boot srv f)) with f.
  rewrite Hl. reflexivity.
Qed.

(** A state file that does not load stops the run before any request: the
    exception of the load comes out, nothing is requested, nothing is
    written. *)
Theorem unloadable_state_file_stops_the_run env srv f e :
  loaded f = Raise e ->
  fst (invoke env srv f) = Raise e
  /\ calls (snd (invoke env srv f)) = []
  /\ state_file (snd (invoke env srv f)) = f.
Proof.
  intros Hl. rewrite (invoke_unloadable env srv f e Hl).
  repeat split; reflexivity.
Qed.

(** An invocation makes at most four calls, at most one of them a ticket
    request, and every request that carries a session token carries the one
    this invocation's session request returned. *)
Theorem requests_carry_the_session env srv f :
  (length (calls (snd (invoke env srv f))) <= 4)%nat
  /\ (length (List.filter is_ticket_call (calls (snd (invoke env srv f))))
      <= 1)%nat
  /\ forall c session,
       In c (calls (snd (invoke env srv f))) ->
       session_of c = Some session ->
       opened srv = Return session.
Proof.
  destruct (loaded f) as [m|e] eqn:Hl.
  - pose proof (invoke_phases env srv f m Hl) as H. cbv zeta in H.
    destruct (opened srv) as [tok|e].
    + destruct H as [_ H].
      assert (exists rest,
                 calls (snd (invoke env srv f))
                 = GET_initSession
                   :: ticket_request tok env
                        (transition_table (m !! fingerprint_of env)
                           (state_of env))
                   ++ GET_killSession tok :: rest
                 /\ (rest = [] \/ exists d, rest = [write_STATE_FILE d]))
        as (rest & -> & Hrest).
      { destruct (killed srv tok) as [[]|e]; destruct H as (_ & H & _);
          rewrite H; eexists; split; eauto. }
      destruct (transition_table _ _) as [|id|];
        destruct Hrest as [->|[d ->]]; cbn;
        (split; [lia|]); (split; [lia|]);
        intros c session Hin Hs;
        repeat (destruct Hin as [<-|Hin]; [cbn in Hs; congruence|]);
        destruct Hin.
    + destruct H as (_ & H & _). rewrite H. cbn.
      split; [lia|]. split; [lia|].
      intros c session [<-|[]] Hs. discriminate Hs.
  - rewrite (invoke_unloadable env srv f e Hl). cbn.
    split; [lia|]. split; [lia|]. intros c session [].
Qed.

Lemma row_create (m : gmap string Z) fp state :
  m !! fp = None -> alarm state -> transition_table (m !! fp) state = Create.
Proof.
  intros Hn Hs. unfold transition_table. rewrite Hn, (alarm_row state Hs).
  reflexivity.
Qed.

Lemma row_keep (m : gmap string Z) fp state id :
  m !! fp = Some id -> alarm state ->
  transition_table (m !! fp) state = Nothing.
Proof.
  intros Hn Hs. unfold transition_table. rewrite Hn, (alarm_row state Hs).
  reflexivity.
Qed.

Lemma row_close (m : gmap string Z) fp id :
  m !! fp = Some id -> transition_table (m !! fp) "OK" = Close id.
Proof. intros Hn. unfold transition_table. rewrite Hn. reflexivity. Qed.

(** The first alarm of a fingerprint, once its ticket is created and the
    session closed *)
Lemma first_alarm env srv f (m : gmap string Z) tok id :
  loaded f = Return m ->
  m !! fingerprint_of env = None ->
  alarm (state_of env) ->
  opened srv = Return tok ->
  created srv tok (ticket_of env) = Return id ->
  killed srv tok = Return tt ->
  state_file (snd (invoke env srv f))
  = Stored (<[fingerprint_of env := id]> m).
Proof.
  intros Hl Hn Hs Ho Hc Hk.
  destruct (invoke_table env srv f m tok Hl Ho) as (_ & Hd & Hf).
  rewrite (Hf Hk), Hd, (row_create m _ _ Hn Hs).
  cbn [ticket_record]. rewrite Hc. reflexivity.
Qed.

(** A second alarm for a fingerprint whose ticket is recorded, whatever its
    state (WARNING after CRITICAL or the reverse) and whatever the peer
    answers, makes no ticket request and leaves the recorded id. *)
Theorem repeated_alarm_creates_one_ticket
    env srv f (m : gmap string Z) tok id env' srv' tok' :
  loaded f = Return m ->
  m !! fingerprint_of env = None ->
  alarm (state_of env) ->
  opened srv = Return tok ->
  created srv tok (ticket_of env) = Return id ->
  killed srv tok = Return tt ->
  fingerprint_of env' = fingerprint_of env ->
  alarm (state_of env') ->
  opened srv' = Return tok' ->
  List.filter is_ticket_call
    (calls (snd (invoke env' srv' (state_file (snd (invoke env srv f))))))
  = []
  /\ state_data (snd (invoke env' srv' (state_file (snd (invoke env srv f)))))
     = <[fingerprint_of env := id]> m.
Proof.
  intros Hl Hn Hs Ho Hc Hk Hfp Hs' Ho'.
  rewrite (first_alarm env srv f m tok id Hl Hn Hs Ho Hc Hk).
  destruct (invoke_table env' srv'
              (Stored (<[fingerprint_of env := id]> m))
              (<[fingerprint_of env := id]> m) tok' eq_refl Ho') as (Hreq & Hd & _).
  rewrite Hreq, Hd, Hfp.
  rewrite (row_keep _ _ _ id (lookup_insert_eq m _ id) Hs').
  split; reflexivity.
Qed.

(** An alarm followed by the OK of the same fingerprint, both served
    without error, closes the very ticket the alarm created and leaves the
    state file holding the map the alarm found. *)
Theorem alarm_then_ok_restores_the_map
    env srv f (m : gmap string Z) tok id env' srv' tok' :
  loaded f = Return m ->
  m !! fingerprint_of env = None ->
  alarm (state_of env) ->
  opened srv = Return tok ->
  created srv tok (ticket_of env) = Return id ->
  killed srv tok = Return tt ->
  fingerprint_of env' = fingerprint_of env ->
  state_of env' = "OK" ->
  opened srv' = Return tok' ->
  closed srv' tok' id = Return tt ->
  killed srv' tok' = Return tt ->
  List.filter is_ticket_call
    (calls (snd (invoke env' srv' (state_file (snd (invoke env srv f))))))
  = [PUT_Ticket tok' id 6]
  /\ state_file (snd (invoke env' srv' (state_file (snd (invoke env srv f)))))
     = Stored m.
Proof.
  intros Hl Hn Hs Ho Hc Hk Hfp Hs' Ho' Hc' Hk'.
  rewrite (first_alarm env srv f m tok id Hl Hn Hs Ho Hc Hk).
  destruct (invoke_table env' srv'
              (Stored (<[fingerprint_of env := id]> m))
              (<[fingerprint_of env := id]> m) tok' eq_refl Ho') as (Hreq & Hd & Hf).
  rewrite (Hf Hk'), Hreq, Hd, Hfp, Hs'.
  rewrite (row_close _ _ id (lookup_insert_eq m _ id)).
  cbn [ticket_request ticket_record]. rewrite Hc', Hfp.
  rewrite (delete_insert_id m _ id Hn). split; reflexivity.
Qed.

(** An invocation that returns normally has opened its session, has had
    the ticket request the table asks for (if any) succeed and has had its
    session close return; one whose session does not open, or whose
    session close raises, ends in that exception. *)
Theorem normal_return_needs_every_request
    env srv f (m : gmap string Z) :
  loaded f = Return m ->
  (fst (invoke env srv f) = Return tt ->
   exists tok,
     opened srv = Return tok
     /\ ticket_outcome srv tok env
          (transition_table (m !! fingerprint_of env) (state_of env))
        = Return tt
     /\ killed srv tok = Return tt)
  /\ (forall e, opened srv = Raise e -> fst (invoke env srv f) = Raise e)
  /\ (forall tok e, opened srv = Return tok -> killed srv tok = Raise e ->
      fst (invoke env srv f) = Raise e).
Proof.
  intros Hl.
  pose proof (invoke_phases env srv f m Hl) as H. cbv zeta in H.
  destruct (opened srv) as [tok|e].
  - destruct H as [_ H].
    destruct (killed srv tok) as [[]|e] eqn:Hk; destruct H as (Hr & _);
      rewrite Hr.
    + split; [|split].
      * intros Ht. exists tok. split; [reflexivity|].
        split; [exact Ht|exact Hk].
      * discriminate.
      * intros tok' e' [= <-] Hk'. rewrite Hk in Hk'. discriminate Hk'.
    + split; [discriminate|]. split; [discriminate|].
      intros tok' e' [= <-] Hk'. rewrite Hk in Hk'. exact Hk'.
  - destruct H as (Hr & _). rewrite Hr.
    split; [discriminate|]. split.
    + intros e' [= <-]. reflexivity.
    + discriminate.
Qed.

(** A ticket request that raises leaves the map as it was loaded, and the
    same map is written back; so the same event, met again, asks for the
    same ticket request: a failed create or close is tried again. *)
Theorem failed_ticket_request_is_retried
    env srv f (m : gmap string Z) tok e srv' tok' :
  loaded f = Return m ->
  opened srv = Return tok ->
  killed srv tok = Return tt ->
  ticket_outcome srv tok env
    (transition_table (m !! fingerprint_of env) (state_of env)) = Raise e ->
  opened srv' = Return tok' ->
  fst (invoke env srv f) = Raise e
  /\ state_file (snd (invoke env srv f)) = Stored m
  /\ List.filter is_ticket_call
       (calls (snd (invoke env srv' (state_file (snd (invoke env srv f))))))
     = ticket_request tok' env
         (transition_table (m !! fingerprint_of env) (state_of env)).
Proof.
  intros Hl Ho Hk He Ho'.
  pose proof (invoke_phases env srv f m Hl) as H. cbv zeta in H.
  rewrite Ho, Hk in H. destruct H as (_ & Hr & _ & Hf).
  assert (ticket_record srv tok env
            (transition_table (m !! fingerprint_of env) (state_of env)) m
          = m) as Hsame.
  { unfold ticket_outcome, ticket_record in *.
    destruct (transition_table _ _) as [|id|]; [| |reflexivity].
    - destruct (created srv tok (ticket_of env));
        [discriminate|reflexivity].
    - destruct (closed srv tok id); [discriminate|reflexivity]. }
  rewrite Hsame in Hf. rewrite Hr, Hf, He.
  split; [reflexivity|]. split; [reflexivity|].
  apply (invoke_table env srv' (Stored m) m tok' eq_refl Ho').
Qed.

(** The answer to the session close is not looked at: whatever its status
    code, the map is written and the run ends as the ticket request did. *)
Theorem session_close_status_is_ignored
    env srv f (m : gmap string Z) tok (res : response unit) :
  loaded f = Return m ->
  opened srv = Return tok ->
  killSession srv tok = Return res ->
  state_file (snd (invoke env srv f)) = Stored (state_data (snd (invoke env srv f)))
  /\ fst (invoke env srv f)
     = ticket_outcome srv tok env
         (transition_table (m !! fingerprint_of env) (state_of env)).
Proof.
  intros Hl Ho Hk.
  pose proof (invoke_phases env srv f m Hl) as H. cbv zeta in H.
  assert (killed srv tok = Return tt) as Hk'
    by (unfold killed; rewrite Hk; reflexivity).
  rewrite Ho, Hk' in H. destruct H as (Hd & Hr & _ & Hf).
  rewrite Hd, Hf, Hr. split; reflexivity.
Qed.

(** When the session close raises after a ticket was created, the state
    file keeps no trace of it;
    the next alarm of the fingerprint creates a second ticket and records
    that one, so two tickets are open at the peer for one fingerprint and
    the first is in no map any more. *)
Theorem dropped_session_close_loses_the_ticket
    env srv f (m : gmap string Z) tok id e env' srv' tok' id' :
  loaded f = Return m ->
  m !! fingerprint_of env = None ->
  alarm (state_of env) ->
  opened srv = Return tok ->
  created srv tok (ticket_of env) = Return id ->
  killed srv tok = Raise e ->
  fingerprint_of env' = fingerprint_of env ->
  alarm (state_of env') ->
  opened srv' = Return tok' ->
  created srv' tok' (ticket_of env') = Return id' ->
  killed srv' tok' = Return tt ->
  state_file (snd (invoke env srv f)) = f
  /\ List.filter is_ticket_call
       (calls (snd (invoke env' srv' (state_file (snd (invoke env srv f))))))
     = [POST_Ticket tok' (ticket_of env')]
  /\ state_file (snd (invoke env' srv' (state_file (snd (invoke env srv f)))))
     = Stored (<[fingerprint_of env := id']> m)
  /\ forall open,
       settle env' srv'
         (calls (snd (invoke env' srv' (state_file (snd (invoke env srv f))))))
         (settle env srv (calls (snd (invoke env srv f))) open)
         (fingerprint_of env)
       = id' :: id :: open (fingerprint_of env).
Proof.
  intros Hl Hn Hs Ho Hc Hk Hfp Hs' Ho' Hc' Hk'.
  pose proof (invoke_phases env srv f m Hl) as H. cbv zeta in H.
  rewrite Ho, Hk, (row_create m _ _ Hn Hs) in H.
  destruct H as (_ & _ & Hcalls & Hf). rewrite Hf, Hcalls.
  pose proof (invoke_phases env' srv' f m Hl) as H'. cbv zeta in H'.
  rewrite Hfp, Ho', Hk', (row_create m _ _ Hn Hs') in H'.
  destruct H' as (_ & _ & Hcalls' & Hf'). rewrite Hf', Hcalls'.
  cbn [ticket_request ticket_record app]. rewrite Hc'.
  split; [reflexivity|]. split; [reflexivity|].
  split; [rewrite Hfp; reflexivity|].
  intros open. unfold settle. cbn [fold_left tally].
  rewrite Hc, Hc', Hfp, String.eqb_refl. reflexivity.
Qed.

(** What an invocation prints: one line naming the ticket and the
    fingerprint when a ticket was created or closed without error, and
    nothing otherwise, not even when the request failed. *)
Theorem one_line_per_ticket_operation env srv f (m : gmap string Z) :
  loaded f = Return m ->
  stdout (snd (invoke env srv f))
  = match opened srv with
    | Return tok =>
        printed srv tok env
          (transition_table (m !! fingerprint_of env) (state_of env))
    | Raise _ => []
    end.
Proof.
  intros Hl. rewrite (invoke_eq env srv f m Hl). cbv zeta.
  destruct (opened srv) as [tok|e]; [|reflexivity].
  rewrite main_try_eq.
  change (api (with_call GET_initSession
                 (with_state_data m (boot srv f)))) with srv.
  change (state_data (with_call GET_initSession
                        (with_state_data m (boot srv f)))) with m.
  unfold printed.
  destruct (transition_table (m !! fingerprint_of env) (state_of env))
    as [|id|].
  - destruct (created srv tok (ticket_of env)) as [id|e];
      destruct (killed _ tok); reflexivity.
  - destruct (closed srv tok id) as [[]|e];
      destruct (killed _ tok); reflexivity.
  - destruct (killed _ tok); reflexivity.
Qed.

End TicketRuns.

(** ** Escaping, undone (discord.py) *)
Section Unescaping.
Import Py Discord Spec More.

Lemma escaped_char_special c :
  escaped_char c
  = if special c then String "\" (String c "") else String c "".
Proof. reflexivity. Qed.

Lemma prefix_specials_cons c s :
  prefix_specials (String c s) = escaped_char c +:+ prefix_specials s.
Proof. reflexivity. Qed.

(** An escaped text never starts with a bare special character. *)
Lemma prefix_specials_head s c r :
  prefix_specials s = String c r -> special c = false.
Proof.
  destruct s as [|c0 s]; [discriminate|].
  rewrite prefix_specials_cons, escaped_char_special.
  destruct (special c0) eqn:E.
  - rewrite append_cons. intros [= <- _]. reflexivity.
  - rewrite append_cons. intros [= <- _]. exact E.
Qed.

Lemma unescape_prefix_specials s : unescape (prefix_specials s) = s.
Proof.
  induction s as [|c s IH]; [reflexivity|].
  rewrite prefix_specials_cons, escaped_char_special.
  destruct (special c) eqn:E.
  - rewrite !append_cons. change ("" +:+ prefix_specials s)
      with (prefix_specials s).
    cbn [unescape]. change (Ascii.eqb "\" "\") with true. cbv iota.
    rewrite E, IH. reflexivity.
  - rewrite append_cons. change ("" +:+ prefix_specials s)
      with (prefix_specials s).
    cbn [unescape]. rewrite IH.
    destruct (Ascii.eqb c "\"); [|reflexivity].
    destruct (prefix_specials s) as [|c2 r2] eqn:Es.
    + destruct s; [reflexivity|].
      rewrite prefix_specials_cons, escaped_char_special in Es.
      destruct (special a); discriminate Es.
    + rewrite (prefix_specials_head s c2 r2 Es). reflexivity.
Qed.

(** Escaping loses nothing: dropping the backslash before each special
    character gives the text back, so two different texts never escape to
    the same one. *)
Theorem escape_discord_is_injective (a b : string) :
  unescape (escape_discord (Some a)) = a
  /\ (escape_discord (Some a) = escape_discord (Some b) -> a = b).
Proof.
  assert (forall s, escape_discord (Some s) = prefix_specials s) as E.
  { intros [|c s]; [reflexivity|]. unfold escape_discord.
    apply three_passes. }
  rewrite !E. split; [apply unescape_prefix_specials|].
  intros H. rewrite <- (unescape_prefix_specials a), H.
  apply unescape_prefix_specials.
Qed.

End Unescaping.

(** * Further worked runs *)

(** ** The chat notifier *)

(** Distinct host names stay distinct once escaped. *)
Lemma escape_discord_is_injective_run :
  More.unescape (Discord.escape_discord (Some "a\_b_c")) = "a\_b_c"
  /\ (Discord.escape_discord (Some "web_1")
      = Discord.escape_discord (Some "web_1") ->
      "web_1" = "web_1").
Proof.
  split.
  - apply (proj1 (escape_discord_is_injective "a\_b_c" "")).
  - apply (proj2 (escape_discord_is_injective "web_1" "web_1")).
Defined.

(** A first run against an accepting webhook returns, and the error log
    stays empty. *)
Lemma error_log_entry_only_for_the_exception_run :
  Discord.errors_log
    (snd (Discord.main Decimal.fromtimestamp_float Decimal.repr_timestamp
            Spec.sample_event (Spec.first_world 1700000000000000)))
  = Discord.errors_log (Spec.first_world 1700000000000000).
Proof.
  assert (fst (Discord.main Decimal.fromtimestamp_float
                 Decimal.repr_timestamp Spec.sample_event
                 (Spec.first_world 1700000000000000)) = Py.Return tt) as Hr
    by (vm_compute; reflexivity).
  destruct (error_log_entry_only_for_the_exception
              Decimal.fromtimestamp_float Decimal.repr_timestamp
              Spec.sample_event (Spec.first_world 1700000000000000))
    as (_ & H & _).
  exact (H tt Hr).
Defined.

(** The webhook answers 500: the run ends in [HTTPError] with the log
    still missing. *)
Lemma failed_post_is_not_recorded_run :
  fst (Discord.main Decimal.fromtimestamp_float Decimal.repr_timestamp
         Spec.sample_event
         (More.chat_world 1700000000000000 Discord.Missing More.rejecting))
  = Py.Raise Py.HTTPError
  /\ Discord.state_file
       (snd (Discord.main Decimal.fromtimestamp_float Decimal.repr_timestamp
               Spec.sample_event
               (More.chat_world 1700000000000000 Discord.Missing
                  More.rejecting)))
     = Discord.Missing.
Proof.
  assert (More.passes Decimal.fromtimestamp_float
            (Discord.get_alert_fingerprint Spec.sample_event)
            (More.chat_world 1700000000000000 Discord.Missing More.rejecting)
          = true) as Hp by (vm_compute; reflexivity).
  destruct (failed_post_is_not_recorded Decimal.fromtimestamp_float
              Decimal.repr_timestamp Spec.sample_event
              (More.chat_world 1700000000000000 Discord.Missing More.rejecting)
              Py.HTTPError Hp eq_refl) as (H1 & H2 & _).
  split; [exact H1|exact H2].
Defined.

(** The webhook accepts: the run returns and the log holds the one
    record. *)
Lemma successful_post_is_recorded_run :
  Discord.state_file
    (snd (Discord.main Decimal.fromtimestamp_float Decimal.repr_timestamp
            Spec.sample_event (Spec.first_world 1700000000000000)))
  = Discord.Content
      ("" +:+ Format.record_line Decimal.repr_timestamp
                (Discord.get_alert_fingerprint Spec.sample_event)
                1700000000000000).
Proof.
  assert (More.passes Decimal.fromtimestamp_float
            (Discord.get_alert_fingerprint Spec.sample_event)
            (Spec.first_world 1700000000000000) = true) as Hp
    by (vm_compute; reflexivity).
  apply (successful_post_is_recorded Decimal.fromtimestamp_float
           Decimal.repr_timestamp Spec.sample_event
           (Spec.first_world 1700000000000000) Hp eq_refl eq_refl).
Defined.

(** The same event met when the clock reads 60 seconds more than when it
    was posted and recorded: the check stops it. *)
Lemma repeated_event_suppressed_within_window_run :
  More.passes Decimal.fromtimestamp_float
    (Discord.get_alert_fingerprint Spec.sample_event)
    (More.at_time 1700000060000000
       (snd (Discord.main Decimal.fromtimestamp_float Decimal.repr_timestamp
               Spec.sample_event (Spec.first_world 1700000000000000))))
  = negb (1700000060000000 - 1700000000000000 <? 1000000 * 300).
Proof.
  assert (More.passes Decimal.fromtimestamp_float
            (Discord.get_alert_fingerprint Spec.sample_event)
            (Spec.first_world 1700000000000000) = true) as Hp
    by (vm_compute; reflexivity).
  assert (0 <= 1700000060000000
               - Discord.now (Spec.first_world 1700000000000000)
          < 1000000 * 86400) as Hday by (cbn; lia).
  apply (repeated_event_suppressed_within_window
           Decimal.fromtimestamp_float Decimal.repr_timestamp
           Spec.sample_event (Spec.first_world 1700000000000000)
           1700000060000000 eq_refl eq_refl eq_refl eq_refl eq_refl eq_refl
           Hp eq_refl Hday).
Defined.

(** A first run against an accepting webhook returns. *)
Lemma run_returns_iff_posted_and_recorded_run :
  fst (Discord.main Decimal.fromtimestamp_float Decimal.repr_timestamp
         Spec.sample_event (Spec.first_world 1700000000000000))
  = Py.Return tt.
Proof.
  assert (More.passes Decimal.fromtimestamp_float
            (Discord.get_alert_fingerprint Spec.sample_event)
            (Spec.first_world 1700000000000000) = true) as Hp
    by (vm_compute; reflexivity).
  apply (proj2 (run_returns_iff_posted_and_recorded
                  Decimal.fromtimestamp_float Decimal.repr_timestamp
                  Spec.sample_event (Spec.first_world 1700000000000000))).
  split; [exact Hp|]. split; reflexivity.
Defined.

(** A run over a complete log leaves a complete log. *)
Lemma dedup_log_only_grows_run :
  Format.complete
    (More.log_text
       (Discord.state_file
          (snd (Discord.main Decimal.fromtimestamp_float
                  Decimal.repr_timestamp Spec.sample_event
                  (Spec.dedup_world 1700000100000000 Spec.single_log)))))
  = true.
Proof.
  apply (proj2 (dedup_log_only_grows Decimal.fromtimestamp_float
                  Decimal.repr_timestamp Spec.sample_event
                  (Spec.dedup_world 1700000100000000 Spec.single_log))).
  reflexivity.
Defined.

(** From a missing log, one run gives a log the script wrote. *)
Lemma script_log_is_kept_run :
  More.script_log Decimal.fromtimestamp_float Decimal.repr_timestamp
    (More.log_text
       (Discord.state_file
          (snd (Discord.main Decimal.fromtimestamp_float
                  Decimal.repr_timestamp Spec.sample_event
                  (Spec.first_world 1700000000000000))))).
Proof.
  apply (script_log_is_kept Decimal.fromtimestamp_float
           Decimal.repr_timestamp Spec.sample_event
           (Spec.first_world 1700000000000000) 1700000000000000).
  - apply More.script_log_empty.
  - reflexivity.
  - reflexivity.
Defined.

(** The one-record log the script writes is scanned without raising. *)
Lemma script_log_scans_without_raising_run :
  exists b,
    Discord.scan Decimal.fromtimestamp_float 1700000100000000
      Spec.sample_fingerprint
      (Py.readlines
         ("" +:+ Format.record_line Decimal.repr_timestamp
                   (Discord.get_alert_fingerprint Spec.sample_event)
                   1700000000000000))
    = Py.Return b.
Proof.
  destruct (script_log_scans_without_raising Decimal.fromtimestamp_float
              Decimal.repr_timestamp _
              (More.script_log_record Decimal.fromtimestamp_float
                 Decimal.repr_timestamp "" Spec.sample_event
                 1700000000000000 1700000000000000
                 (More.script_log_empty _ _) eq_refl eq_refl))
    as [_ H].
  apply (H Spec.sample_fingerprint).
Defined.

(** ** The ticketing notifier *)

Lemma unloadable_state_file_stops_the_run_run :
  fst (Glpi.invoke (Spec.event "host1" "svcA" "CRITICAL") (Spec.helpful 7)
         (Glpi.Corrupt Py.JSONDecodeError))
  = Py.Raise Py.JSONDecodeError
  /\ Glpi.calls
       (snd (Glpi.invoke (Spec.event "host1" "svcA" "CRITICAL")
               (Spec.helpful 7) (Glpi.Corrupt Py.JSONDecodeError)))
     = [].
Proof.
  destruct (unloadable_state_file_stops_the_run
              (Spec.event "host1" "svcA" "CRITICAL") (Spec.helpful 7)
              (Glpi.Corrupt Py.JSONDecodeError) Py.JSONDecodeError eq_refl)
    as (H1 & H2 & _).
  split; [exact H1|exact H2].
Defined.

(** A first CRITICAL against a helpful peer returns: its session was
    opened and closed. *)
Lemma normal_return_needs_every_request_run :
  exists tok,
    Spec.opened (Spec.helpful 7) = Py.Return tok
    /\ Spec.killed (Spec.helpful 7) tok = Py.Return tt.
Proof.
  destruct (normal_return_needs_every_request
              (Spec.event "host1" "svcA" "CRITICAL") (Spec.helpful 7)
              Glpi.Absent ∅ eq_refl) as (H & _).
  destruct (H eq_refl) as (tok & Ho & _ & Hk).
  exists tok. split; [exact Ho|exact Hk].
Defined.

Lemma requests_carry_the_session_run :
  Spec.opened (Spec.helpful 7) = Py.Return "s3ss10n".
Proof.
  destruct (requests_carry_the_session
              (Spec.event "host1" "svcA" "CRITICAL") (Spec.helpful 7)
              Glpi.Absent) as (_ & _ & H).
  apply (H (Glpi.GET_killSession "s3ss10n") "s3ss10n");
    [right; right; left; reflexivity|reflexivity].
Defined.

(** CRITICAL creates ticket 7; the WARNING that follows asks for
    nothing. *)
Lemma repeated_alarm_creates_one_ticket_run :
  List.filter Spec.is_ticket_call
    (Glpi.calls
       (snd (Glpi.invoke (Spec.event "host1" "svcA" "WARNING")
               (Spec.helpful 8)
               (Glpi.state_file
                  (snd (Glpi.invoke (Spec.event "host1" "svcA" "CRITICAL")
                          (Spec.helpful 7) Glpi.Absent))))))
  = [].
Proof.
  destruct (repeated_alarm_creates_one_ticket
              (Spec.event "host1" "svcA" "CRITICAL") (Spec.helpful 7)
              Glpi.Absent ∅ "s3ss10n" 7
              (Spec.event "host1" "svcA" "WARNING") (Spec.helpful 8)
              "s3ss10n" eq_refl eq_refl (or_intror eq_refl) eq_refl eq_refl
              eq_refl eq_refl (or_introl eq_refl) eq_refl) as [H _].
  exact H.
Defined.

(** CRITICAL then OK over a map with another entry: ticket 7 is closed and
    the file holds the other entry alone again. *)
Lemma alarm_then_ok_restores_the_map_run :
  Glpi.state_file
    (snd (Glpi.invoke (Spec.event "host1" "svcA" "OK") (Spec.helpful 8)
            (Glpi.state_file
               (snd (Glpi.invoke (Spec.event "host1" "svcA" "CRITICAL")
                       (Spec.helpful 7)
                       (Glpi.Stored {[ "host2_svcB" := 3 ]}))))))
  = Glpi.Stored {[ "host2_svcB" := 3 ]}.
Proof.
  assert (({[ "host2_svcB" := 3 ]} : gmap string Z)
            !! Glpi.fingerprint_of (Spec.event "host1" "svcA" "CRITICAL")
          = None) as Hnone by reflexivity.
  destruct (alarm_then_ok_restores_the_map
              (Spec.event "host1" "svcA" "CRITICAL") (Spec.helpful 7)
              (Glpi.Stored {[ "host2_svcB" := 3 ]}) {[ "host2_svcB" := 3 ]}
              "s3ss10n" 7
              (Spec.event "host1" "svcA" "OK") (Spec.helpful 8) "s3ss10n"
              eq_refl Hnone (or_intror eq_refl) eq_refl eq_refl eq_refl
              eq_refl eq_refl eq_refl eq_refl eq_refl) as [_ H].
  exact H.
Defined.

(** The create request fails; the next alarm asks for the ticket again. *)
Lemma failed_ticket_request_is_retried_run :
  List.filter Spec.is_ticket_call
    (Glpi.calls
       (snd (Glpi.invoke (Spec.event "host1" "svcA" "CRITICAL")
               (Spec.helpful 7)
               (Glpi.state_file
                  (snd (Glpi.invoke (Spec.event "host1" "svcA" "CRITICAL")
                          Spec.failing_tickets Glpi.Absent))))))
  = [Glpi.POST_Ticket "s3ss10n"
       (Spec.ticket_of (Spec.event "host1" "svcA" "CRITICAL"))].
Proof.
  destruct (failed_ticket_request_is_retried
              (Spec.event "host1" "svcA" "CRITICAL") Spec.failing_tickets
              Glpi.Absent ∅ "s3ss10n" Py.HTTPError (Spec.helpful 7) "s3ss10n"
              eq_refl eq_refl eq_refl eq_refl eq_refl) as (_ & _ & H).
  exact H.
Defined.

(** The session close is answered with status 500: the new ticket is
    written to the state file all the same. *)
Lemma session_close_status_is_ignored_run :
  fst (Glpi.invoke (Spec.event "host1" "svcA" "CRITICAL")
         (More.grumpy_close 7) Glpi.Absent)
  = Py.Return tt.
Proof.
  destruct (session_close_status_is_ignored
              (Spec.event "host1" "svcA" "CRITICAL") (More.grumpy_close 7)
              Glpi.Absent ∅ "s3ss10n"
              {| Py.status_code := 500; Py.json_field := Py.Return tt |}
              eq_refl eq_refl eq_refl) as [_ H].
  exact H.
Defined.

(** Ticket 7 is created, the session close is dropped; the next alarm
    creates ticket 8, and tickets 8 and 7 are open for the fingerprint. *)
Lemma dropped_session_close_loses_the_ticket_run :
  Spec.settle (Spec.event "host1" "svcA" "WARNING") (Spec.helpful 8)
    (Glpi.calls
       (snd (Glpi.invoke (Spec.event "host1" "svcA" "WARNING")
               (Spec.helpful 8)
               (Glpi.state_file
                  (snd (Glpi.invoke (Spec.event "host1" "svcA" "CRITICAL")
                          (Spec.dropping_close 7) Glpi.Absent))))))
    (Spec.settle (Spec.event "host1" "svcA" "CRITICAL")
       (Spec.dropping_close 7)
       (Glpi.calls
          (snd (Glpi.invoke (Spec.event "host1" "svcA" "CRITICAL")
                  (Spec.dropping_close 7) Glpi.Absent)))
       (fun _ => []))
    "host1_svcA"
  = [8; 7].
Proof.
  destruct (dropped_session_close_loses_the_ticket
              (Spec.event "host1" "svcA" "CRITICAL") (Spec.dropping_close 7)
              Glpi.Absent ∅ "s3ss10n" 7 Py.ConnectionError
              (Spec.event "host1" "svcA" "WARNING") (Spec.helpful 8)
              "s3ss10n" 8 eq_refl eq_refl (or_intror eq_refl) eq_refl eq_refl
              eq_refl eq_refl (or_introl eq_refl) eq_refl eq_refl eq_refl)
    as (_ & _ & _ & H).
  exact (H (fun _ => [])).
Defined.

Lemma one_line_per_ticket_operation_run :
  Glpi.stdout
    (snd (Glpi.invoke (Spec.event "host1" "svcA" "CRITICAL") (Spec.helpful 7)
            Glpi.Absent))
  = ["Created ticket 7 for host1_svcA"].
Proof.
  apply (one_line_per_ticket_operation
           (Spec.event "host1" "svcA" "CRITICAL") (Spec.helpful 7)
           Glpi.Absent ∅ eq_refl).
Defined.
